(** * ethr-credo-module: schema registry client, ledger service, DID resolver

    A shallow embedding of

      - [src/schema/EthereumSchemaRegistry.ts] and its error classes
        ([src/schema/types/EthereumSchemaRegistry.types.ts]),
      - [src/ledger/EthereumLedgerService.ts],
      - [src/utils/schemaHelper.ts],
      - [src/dids/EthrDidResolver.ts],

    followed by the properties of the specification that concern them.

    Conventions.  A JavaScript string is a [string]: a sequence of code units
    below 256.  A promise is the value it settles to, an [Outcome]; an async
    function is a computation in [M], which pairs that outcome with the
    externally visible events (log lines, contract calls, HTTP posts) issued
    on the way.  Everything outside the package (ethers, the contract, axios,
    the wallet, the DID repository, the did-resolver library, the JSON and
    hashing runtime) is a field of the record [World]. *)

From Stdlib Require Import String Ascii List Bool Arith ZArith DecimalString Lia.
Import ListNotations.
Local Open Scope list_scope.
Local Open Scope string_scope.

Set Implicit Arguments.

(* ====================================================================== *)
(** ** JavaScript strings *)

Module JsString.

Definition codeUnit (c : ascii) : nat := nat_of_ascii c.

(** White space removed by [String.prototype.trim], restricted to code
    units below 256: TAB, LF, VT, FF, CR, SP and NBSP. *)
Definition isWhiteSpace (c : ascii) : bool :=
  let n := codeUnit c in
  (((9 <=? n) && (n <=? 13)) || (n =? 32) || (n =? 160))%nat.

Fixpoint trimStart (s : string) : string :=
  match s with
  | EmptyString => EmptyString
  | String c s' => if isWhiteSpace c then trimStart s' else s
  end.

Fixpoint trimEnd (s : string) : string :=
  match s with
  | EmptyString => EmptyString
  | String c s' =>
      match trimEnd s' with
      | EmptyString => if isWhiteSpace c then EmptyString else String c EmptyString
      | t => String c t
      end
  end.

Definition trim (s : string) : string := trimEnd (trimStart s).

(** Truthiness of a string: only the empty string is falsy. *)
Definition truthy (s : string) : bool :=
  match s with EmptyString => false | _ => true end.

(** [!s?.trim()] for a string [s]. *)
Definition isBlank (s : string) : bool := negb (truthy (trim s)).

(** [String.prototype.toLowerCase] on code units below 256: A-Z and the
    Latin-1 capitals (0xC0-0xDE except the multiplication sign 0xD7). *)
Definition lowerChar (c : ascii) : ascii :=
  let n := codeUnit c in
  if (((65 <=? n) && (n <=? 90))
      || ((192 <=? n) && (n <=? 222) && negb (n =? 215)))%nat
  then ascii_of_nat (n + 32) else c.

Fixpoint toLowerCase (s : string) : string :=
  match s with
  | EmptyString => EmptyString
  | String c s' => String (lowerChar c) (toLowerCase s')
  end.

(** [s.includes(pat)]. *)
Fixpoint includes (s pat : string) : bool :=
  prefix pat s ||
  match s with
  | EmptyString => false
  | String _ s' => includes s' pat
  end.

(** [a || b] on strings. *)
Definition orElse (a b : string) : string := if truthy a then a else b.

(** [a || b] where [a] may be [undefined]. *)
Definition optOrElse (a : option string) (b : string) : string :=
  match a with Some x => orElse x b | None => b end.

(** An optional string interpolated in a template literal. *)
Definition interp (a : option string) : string :=
  match a with Some x => x | None => "undefined" end.

Definition optTruthy (a : option string) : bool :=
  match a with Some x => truthy x | None => false end.

End JsString.
Import JsString.

(* ====================================================================== *)
(** ** Thrown values and the error classes *)

(** The classes whose instances the package throws or inspects.  [Foreign n]
    stands for any other class deriving directly from [Error] (an ethers or
    axios error, say). *)
Inductive ErrClass : Type :=
| ErrorC
| TypeErrorC
| Foreign (n : string)
| CredoErrorC
| WalletErrorC
| EthereumLedgerErrorC
| SchemaCreationErrorC
| SchemaRetrievalErrorC
| SchemaRegistryErrorC
| ContractErrorC
| NetworkErrorC
| ValidationErrorC.

(** The [extends] clause of each class. *)
Definition superclass (c : ErrClass) : option ErrClass :=
  match c with
  | ErrorC => None
  | TypeErrorC | Foreign _ | CredoErrorC | SchemaRegistryErrorC => Some ErrorC
  | WalletErrorC | EthereumLedgerErrorC => Some CredoErrorC
  | SchemaCreationErrorC | SchemaRetrievalErrorC => Some EthereumLedgerErrorC
  | ContractErrorC | NetworkErrorC | ValidationErrorC => Some SchemaRegistryErrorC
  end.

Definition ErrClass_eqb (a b : ErrClass) : bool :=
  match a, b with
  | ErrorC, ErrorC | TypeErrorC, TypeErrorC | CredoErrorC, CredoErrorC
  | WalletErrorC, WalletErrorC | EthereumLedgerErrorC, EthereumLedgerErrorC
  | SchemaCreationErrorC, SchemaCreationErrorC
  | SchemaRetrievalErrorC, SchemaRetrievalErrorC
  | SchemaRegistryErrorC, SchemaRegistryErrorC
  | ContractErrorC, ContractErrorC | NetworkErrorC, NetworkErrorC
  | ValidationErrorC, ValidationErrorC => true
  | Foreign n, Foreign m => String.eqb n m
  | _, _ => false
  end.

(** Walk up the prototype chain; the hierarchy is three levels deep. *)
Fixpoint derives (depth : nat) (c target : ErrClass) : bool :=
  ErrClass_eqb c target ||
  match depth with
  | 0 => false
  | S d => match superclass c with
           | Some p => derives d p target
           | None => false
           end
  end.

(** A value given to [throw] or to a promise rejection.  An error object
    carries the fields the package reads or writes: [name], [message],
    [code] and [reason] (as ethers sets them, and [code] as
    [SchemaRegistryError] sets it), [revertReason] ([ContractError]),
    [cause] ([CredoError]) and [originalError] ([SchemaRegistryError]). *)
#[warnings="-register-all"]
Inductive Thrown : Type :=
| ThrowErr (cls : ErrClass) (name message : string)
           (code reason revertReason : option string)
           (cause originalError : option Thrown)
| ThrowStr (s : string)
| ThrowUndefined.

Definition instanceof (e : Thrown) (c : ErrClass) : bool :=
  match e with
  | ThrowErr cls _ _ _ _ _ _ _ => derives 3 cls c
  | _ => false
  end.

Definition message (e : Thrown) : option string :=
  match e with ThrowErr _ _ m _ _ _ _ _ => Some m | _ => None end.

Definition code (e : Thrown) : option string :=
  match e with ThrowErr _ _ _ c _ _ _ _ => c | _ => None end.

Definition reason (e : Thrown) : option string :=
  match e with ThrowErr _ _ _ _ r _ _ _ => r | _ => None end.

Definition cause (e : Thrown) : option Thrown :=
  match e with ThrowErr _ _ _ _ _ _ c _ => c | _ => None end.

Definition originalError (e : Thrown) : option Thrown :=
  match e with ThrowErr _ _ _ _ _ _ _ o => o | _ => None end.

(** [String(e)], which is also [`${e}`]: [Error.prototype.toString] for an
    error object. *)
Definition toString (e : Thrown) : string :=
  match e with
  | ThrowErr _ n m _ _ _ _ _ =>
      if negb (truthy n) then m
      else if negb (truthy m) then n
      else n ++ ": " ++ m
  | ThrowStr s => s
  | ThrowUndefined => "undefined"
  end.

(** [e?.toString()]. *)
Definition optToString (e : Thrown) : option string :=
  match e with ThrowUndefined => None | _ => Some (toString e) end.

(** Constructors of the built-in classes. *)
Definition new_Error (msg : string) : Thrown :=
  ThrowErr ErrorC "Error" msg None None None None None.

Definition new_TypeError (msg : string) : Thrown :=
  ThrowErr TypeErrorC "TypeError" msg None None None None None.

(** [@credo-ts/core]: [CredoError] and [WalletError]. *)
Definition new_CredoError (msg : string) : Thrown :=
  ThrowErr CredoErrorC "CredoError" msg None None None None None.

Definition new_WalletError (msg : string) : Thrown :=
  ThrowErr WalletErrorC "WalletError" msg None None None None None.

(** EthereumLedgerService.ts, lines 17-36. *)
Definition new_EthereumLedgerError (msg : string) (cause : option Thrown) : Thrown :=
  ThrowErr EthereumLedgerErrorC "EthereumLedgerError" msg None None None cause None.

Definition new_SchemaCreationError (reason : string) (cause : option Thrown) : Thrown :=
  ThrowErr SchemaCreationErrorC "SchemaCreationError"
           ("Schema creation failed. Reason: " ++ reason)
           None None None cause None.

Definition new_SchemaRetrievalError (schemaId reason : string)
           (cause : option Thrown) : Thrown :=
  ThrowErr SchemaRetrievalErrorC "SchemaRetrievalError"
           ("Schema retrieval failed for Schema ID: " ++ schemaId
              ++ ". Reason: " ++ reason)
           None None None cause None.

(** EthereumSchemaRegistry.types.ts, lines 10-36. *)
Definition new_SchemaRegistryError (msg : string) (code : option string)
           (originalError : option Thrown) : Thrown :=
  ThrowErr SchemaRegistryErrorC "SchemaRegistryError" msg code None None None
           originalError.

Definition new_ContractError (msg : string) (revertReason : option string)
           (originalError : option Thrown) : Thrown :=
  ThrowErr ContractErrorC "ContractError" msg (Some "CONTRACT_ERROR") None
           revertReason None originalError.

Definition new_NetworkError (msg : string) (originalError : option Thrown) : Thrown :=
  ThrowErr NetworkErrorC "NetworkError" msg (Some "NETWORK_ERROR") None None None
           originalError.

Definition new_ValidationError (msg : string) (originalError : option Thrown) : Thrown :=
  ThrowErr ValidationErrorC "ValidationError" msg (Some "VALIDATION_ERROR") None
           None None originalError.

(* ====================================================================== *)
(** ** Settled promises and the computation monad *)

(** What a promise settles to ([Promise.allSettled]'s two statuses). *)
Inductive Outcome (A : Type) : Type :=
| Fulfilled (value : A)
| Rejected (reason : Thrown).
Arguments Fulfilled {A} value.
Arguments Rejected {A} reason.

Inductive LogLevel : Type := Info | Warn | ErrorLevel.

(** The effects visible outside the process. *)
Inductive Event : Type :=
| Log (level : LogLevel) (msg : string)
| ContractCall (method : string) (args : list string)
| HttpPost (url authorization body : string).

(** An async function: the events it issues, then how it settles. *)
Definition M (A : Type) : Type := (list Event * Outcome A)%type.

Definition trace {A} (m : M A) : list Event := fst m.
Definition outcome {A} (m : M A) : Outcome A := snd m.

Definition ret {A} (a : A) : M A := ([], Fulfilled a).
Definition throw {A} (e : Thrown) : M A := ([], Rejected e).
Definition emit (ev : Event) : M unit := ([ev], Fulfilled tt).
Definition settle {A} (o : Outcome A) : M A := ([], o).

Definition bind {A B} (m : M A) (k : A -> M B) : M B :=
  match m with
  | (t, Fulfilled a) => let (t', r) := k a in ((t ++ t')%list, r)
  | (t, Rejected e) => (t, Rejected e)
  end.

(** [try { m } catch (error) { h error }]. *)
Definition try_catch {A} (m : M A) (h : Thrown -> M A) : M A :=
  match m with
  | (t, Fulfilled a) => (t, Fulfilled a)
  | (t, Rejected e) => let (t', r) := h e in ((t ++ t')%list, r)
  end.

(** One member of [Promise.allSettled]: never rejects, reports the status. *)
Definition allSettled1 {A} (m : M A) : M (Outcome A) :=
  (fst m, Fulfilled (snd m)).

Declare Scope js_scope.
Delimit Scope js_scope with js.
Notation "x <- m ;; k" := (bind m (fun x => k))
  (at level 61, m at next level, right associativity) : js_scope.
Notation "m ;;; k" := (bind m (fun _ => k))
  (at level 61, right associativity) : js_scope.
Local Open Scope js_scope.

(* ====================================================================== *)
(** ** Data model *)

(** JSON values.  A schema body, of TypeScript type [object], is a plain
    object: the list of its own enumerable properties, keys distinct. *)
#[warnings="-register-all"]
Inductive JsValue : Type :=
| JNull
| JBool (b : bool)
| JNum (n : Z)
| JStr (s : string)
| JArr (items : list JsValue)
| JObj (fields : list (string * JsValue)).

Definition JsObject : Type := list (string * JsValue).

(** [Object.keys(o).length]. *)
Definition Object_keys_length (o : JsObject) : nat := List.length o.

(** [String(o)] for a plain object: [Object.prototype.toString] does not
    look at the properties.  This is for objects that have no property of
    their own named [toString] or [valueOf], as object literals of schemas
    and the values of [JSON.parse] are; with such a property [String(o)]
    calls it, or throws a [TypeError] when it is not a function. *)
Definition String_of_object (o : JsObject) : string := "[object Object]".

(** ethers: a signing key and a transaction receipt. *)
Record SigningKey : Type := { privateKey : string }.

Record ContractTransactionReceipt : Type :=
  { hash : string; blockNumber : nat; status : nat }.

(** EthereumSchemaRegistry.types.ts, lines 3-7 and 38-49. *)
Record SchemaRegistryConfig : Type :=
  { contractAddress : string;
    rpcUrl : string;
    signingKey : option SigningKey }.

Record ResourcePayload : Type :=
  { resourceURI : string;
    resourceCollectionId : string;
    resourceId : string;
    resourceName : string;
    resourceType : string;
    mediaType : string;
    created : string;
    checksum : string;
    previousVersionId : string;
    nextVersionId : string }.

(** The payload as the JSON value [JSON.stringify] receives, properties in
    the order of the object literal. *)
Definition ResourcePayload_toJSON (r : ResourcePayload) : JsValue :=
  JObj [ ("resourceURI", JStr (resourceURI r));
         ("resourceCollectionId", JStr (resourceCollectionId r));
         ("resourceId", JStr (resourceId r));
         ("resourceName", JStr (resourceName r));
         ("resourceType", JStr (resourceType r));
         ("mediaType", JStr (mediaType r));
         ("created", JStr (created r));
         ("checksum", JStr (checksum r));
         ("previousVersionId", JStr (previousVersionId r));
         ("nextVersionId", JStr (nextVersionId r)) ].

(** EthereumSchemaRegistry.ts, lines 60-62: the instance fields.  The
    provider is identified by its URL and the contract handle by the
    configuration it was built from. *)
Record SchemaRegistry : Type :=
  { provider : string;
    registry_wallet : option SigningKey;
    schemaRegistryContract : SchemaRegistryConfig }.

(** axios: the request options of [uploadSchemaFile] and a response. *)
Record AxiosOptions : Type :=
  { method : string;
    url : string;
    header_ContentType : string;
    header_Authorization : string;
    data : string }.

Record AxiosResponse : Type := { response_status : nat; response_data : string }.

(** @credo-ts/core: stored DID records, the part the service reads. *)
Record VerificationMethod : Type :=
  { vm_id : string;
    publicKeyHex : option string;
    blockchainAccountId : option string }.

Record StoredDidDocument : Type :=
  { verificationMethod : option (list VerificationMethod) }.

Record DidRecord : Type := { record_didDocument : option StoredDidDocument }.

Inductive WalletKind : Type := AskarWallet | AskarProfileWallet | OtherWallet.

(** A wallet: its class and [session.fetchKey({ name })], which gives the
    secret bytes of the entry, if there is one. *)
Record Wallet : Type :=
  { walletKind : WalletKind;
    fetchKey : string -> Outcome (option string) }.

(** did-resolver: a resolution result in JSON form.  The [@context] member
    of a document is absent, a single string or an array of strings. *)
Inductive ContextField : Type :=
| ContextAbsent
| ContextString (s : string)
| ContextArray (items : list string).

Record JsonDidDocument : Type :=
  { context : ContextField;
    document_id : string;
    document_members : JsObject }.

Record DidResolutionMetadata : Type :=
  { error : option string;
    metadata_message : option string;
    contentType : option string }.

Record DIDResolutionResult : Type :=
  { resolved_didDocument : option JsonDidDocument;
    resolved_didDocumentMetadata : JsObject;
    resolved_didResolutionMetadata : DidResolutionMetadata }.

(** @credo-ts/core: a [DidDocument] instance, and the result of a
    [DidResolver]. *)
Inductive DidDocument : Type := DidDocumentInstance (json : JsonDidDocument).

Record DidResolutionResult : Type :=
  { didDocument : option DidDocument;
    didDocumentMetadata : JsObject;
    didResolutionMetadata : DidResolutionMetadata }.

(** EthereumLedgerService.ts, lines 38-47 and 51-55.  [service_rpcUrl] is
    the field [rpcUrl] of the service. *)
Record SchemaCreationResult : Type :=
  { result_did : string;
    schemaId : string;
    schemaTxnHash : option string }.

Record SchemaCreateOptions : Type :=
  { did : string;
    schemaName : string;
    schema : JsObject }.

Record LedgerService : Type :=
  { service_rpcUrl : option string;
    schemaManagerContractAddress : option string;
    fileServerToken : option string;
    fileServerUrl : option string;
    resolver : string -> Outcome DIDResolutionResult }.

(** The agent context: the wallet, [DidRepository.findCreatedDid] and what
    the dependency manager gives for [EthereumLedgerService]. *)
Record AgentContext : Type :=
  { wallet : Wallet;
    findCreatedDid : string -> Outcome (option DidRecord);
    dependencyManager_resolve : Outcome LedgerService }.

(* ====================================================================== *)
(** ** The world outside the package *)

Record World : Type :=
  { (** the ECMAScript runtime: whether [JSON.parse] accepts a text,
        [JSON.stringify], [new Date().toISOString()] *)
    JSON_parse_ok : string -> bool;
    JSON_stringify : JsValue -> string;
    Date_toISOString : string;
    (** ethers: [isAddress]; whether building the provider, wallet and
        contract handles throws; the contract's [createSchema] followed by
        [wait()]; the contract's [schemas]; [new SigningKey] *)
    isAddress : string -> bool;
    ethers_connect : SchemaRegistryConfig -> option Thrown;
    contract_createSchema :
      SchemaRegistryConfig -> string -> string -> Outcome ContractTransactionReceipt;
    contract_schemas : SchemaRegistryConfig -> string -> string -> Outcome string;
    new_SigningKey : string -> Outcome SigningKey;
    (** keccak256: the digest of a text, in hexadecimal *)
    keccak256_hex : string -> string;
    (** axios *)
    axios : AxiosOptions -> Outcome AxiosResponse;
    (** @credo-ts/core: [utils.uuid()], [TypedArrayEncoder.toBase58] after
        [TypedArrayEncoder.fromHex], [JsonTransformer.fromJSON] at class
        [DidDocument] *)
    utils_uuid : string;
    hexToBase58 : string -> string;
    JsonTransformer_fromJSON : option JsonDidDocument -> Outcome (option DidDocument);
    (** src/utils/utils.ts, which is not part of the sources at hand *)
    getPreferredKey : list VerificationMethod -> Outcome string;
    parseAddress : string -> Outcome string }.

(** A caught value stored in an optional field or passed as an optional
    argument: [undefined] leaves it unset. *)
Definition optional (e : Thrown) : option Thrown :=
  match e with ThrowUndefined => None | _ => Some e end.

(* ====================================================================== *)
(** ** src/schema/EthereumSchemaRegistry.ts *)

Module EthereumSchemaRegistry.
Section WithWorld.
Variable w : World.

(** Lines 84-94. *)
Definition validateConfig (config : SchemaRegistryConfig) : M unit :=
  if negb (truthy (contractAddress config)) || negb (isAddress w (contractAddress config))
  then throw (new_ValidationError "Invalid contract address" None)
  else if negb (truthy (rpcUrl config))
  then throw (new_ValidationError "RPC URL is required" None)
  else match signingKey config with
       | None => throw (new_ValidationError "Signing Key is required" None)
       | Some _ => ret tt
       end.

(** Lines 64-82, the constructor. *)
Definition new (config : SchemaRegistryConfig) : M SchemaRegistry :=
  validateConfig config ;;;
  try_catch
    (match ethers_connect w config with
     | Some e => throw e
     | None =>
         ret {| provider := rpcUrl config;
                registry_wallet := signingKey config;
                schemaRegistryContract := config |}
     end)
    (fun error =>
       throw (new_NetworkError
                ("Failed to initialize EthereumSchemaManager: "
                   ++ (if instanceof error ErrorC
                       then interp (message error) else "Unknown error"))
                (optional error))).

(** Lines 199-206. *)
Definition validateSchemaId (schemaId : string) : M unit :=
  if negb (truthy schemaId) || (String.length (trim schemaId) =? 0)%nat
  then throw (new_ValidationError "Schema ID cannot be empty" None)
  else if (256 <? String.length schemaId)%nat
  then throw (new_ValidationError "Schema ID too long (max 256 characters)" None)
  else ret tt.

(** Lines 208-217. *)
Definition validateJson (json : string) : M unit :=
  if negb (truthy json) || (String.length (trim json) =? 0)%nat
  then throw (new_ValidationError "JSON cannot be empty" None)
  else if JSON_parse_ok w json then ret tt
  else throw (new_ValidationError "Invalid JSON format" None).

(** Lines 219-223. *)
Definition validateAddress (address : string) : M unit :=
  if negb (truthy address) || negb (isAddress w address)
  then throw (new_ValidationError "Invalid address" None)
  else ret tt.

(** Lines 226-243.  Reading a property of [undefined] is a [TypeError];
    a primitive has none of the three properties. *)
Definition handleContractError {A} (error : Thrown) : M A :=
  match error with
  | ThrowUndefined =>
      throw (new_TypeError "Cannot read properties of undefined (reading 'reason')")
  | _ =>
      if optTruthy (reason error) then
        let r := interp (reason error) in
        if r =? "SCHEMA_EXISTS" then
          throw (new_ContractError
                   "Schema already exists for this address and schema ID"
                   (reason error) (Some error))
        else if r =? "NOT_OWNER" then
          throw (new_ContractError
                   "Only contract owner can perform this action"
                   (reason error) (Some error))
        else
          throw (new_ContractError ("Contract error: " ++ r)
                                   (reason error) (Some error))
      else if match code error with
              | Some c => c =? "NETWORK_ERROR"
              | None => false
              end
      then throw (new_NetworkError ("Network error: " ++ interp (message error))
                                   (Some error))
      else throw (new_ContractError ("Transaction failed: " ++ interp (message error))
                                    None (Some error))
  end.

(** Lines 99-113. *)
Definition createSchema (self : SchemaRegistry) (schemaId json : string)
  : M ContractTransactionReceipt :=
  match registry_wallet self with
  | None =>
      throw (new_ValidationError "Wallet is required for transaction operations" None)
  | Some _ =>
      validateSchemaId schemaId ;;;
      validateJson json ;;;
      try_catch
        (emit (ContractCall "createSchema" [schemaId; json]) ;;;
         schemaTxnReceipt <-
           settle (contract_createSchema w (schemaRegistryContract self) schemaId json) ;;
         ret schemaTxnReceipt)
        handleContractError
  end.

(** Lines 138-151: the lookup by owner address and schema id.  The ledger
    service and the tests call it [getSchemaById]. *)
Definition getSchema (self : SchemaRegistry) (address schemaId : string)
  : M (option string) :=
  validateAddress address ;;;
  validateSchemaId schemaId ;;;
  try_catch
    (emit (ContractCall "schemas" [address; schemaId]) ;;;
     schema <- settle (contract_schemas w (schemaRegistryContract self) address schemaId) ;;
     if negb (truthy schema) || (String.length (trim schema) =? 0)%nat
     then ret None
     else ret (Some schema))
    handleContractError.

End WithWorld.
End EthereumSchemaRegistry.

(* ====================================================================== *)
(** ** src/utils/schemaHelper.ts *)

Module schemaHelper.
Section WithWorld.
Variable w : World.

(** Lines 12-36. *)
Definition buildSchemaResource (did schemaId name : string) (schema : JsObject)
           (address : string) : M ResourcePayload :=
  let checksum := keccak256_hex w (String_of_object schema) in
  if negb (truthy checksum)
  then throw (new_Error "Error while calculating checksum!")
  else ret {| resourceURI := did ++ "/resources/" ++ schemaId;
              resourceCollectionId := address;
              resourceId := schemaId;
              resourceName := name;
              resourceType := "W3C-schema";
              mediaType := "";
              created := Date_toISOString w;
              checksum := checksum;
              previousVersionId := "";
              nextVersionId := "" |}.

(** Lines 38-69.  The second [throw] of the handler is never reached. *)
Definition uploadSchemaFile (schemaId : string) (schema : JsObject)
           (fileServerUrl fileServerToken : string) : M AxiosResponse :=
  try_catch
    (if negb (truthy schemaId) || (Object_keys_length schema =? 0)%nat
     then throw (new_Error "Schema resource id and schema are required!")
     else
       let schemaPayload := JObj [("schemaId", JStr schemaId); ("schema", JObj schema)] in
       let axiosOptions :=
         {| method := "post";
            url := fileServerUrl ++ "/schemas";
            header_ContentType := "application/json";
            header_Authorization := "Bearer " ++ fileServerToken;
            data := JSON_stringify w schemaPayload |} in
       emit (HttpPost (url axiosOptions) (header_Authorization axiosOptions)
                      (data axiosOptions)) ;;;
       response <- settle (axios w axiosOptions) ;;
       ret response)
    (fun error =>
       throw (new_Error ("Error occurred in uploadSchemaFile function "
                           ++ toString error ++ " "))).

End WithWorld.
End schemaHelper.

(* ====================================================================== *)
(** ** src/ledger/EthereumLedgerService.ts *)

Module EthereumLedgerService.
Section WithWorld.
Variable w : World.

(** A setting that is defined and not empty, narrowed to its string. *)
Definition configured (setting : option string) : option string :=
  match setting with
  | Some s => if truthy s then Some s else None
  | None => None
  end.

Record KeyResult : Type :=
  { publicKeyBase58 : string; keyResult_blockchainAccountId : string }.

(** Lines 217-242. *)
Definition getPublicKeyFromDid (agentContext : AgentContext) (did : string)
  : M KeyResult :=
  didRecord <- settle (findCreatedDid agentContext did) ;;
  match didRecord with
  | None => throw (new_CredoError "DidRecord not found")
  | Some didRecord =>
      match match record_didDocument didRecord with
            | Some doc => verificationMethod doc
            | None => None
            end with
      | None => throw (new_CredoError "VerificationMethod not found cannot get public key")
      | Some methods =>
          blockchainAccountId <- settle (getPreferredKey w methods) ;;
          match List.find (fun obj => optTruthy (publicKeyHex obj)) methods with
          | None =>
              throw (new_CredoError ("Public Key hex not found in wallet for did: " ++ did))
          | Some keyObj =>
              match configured (publicKeyHex keyObj) with
              | None =>
                  throw (new_CredoError
                           ("Public Key hex not found in wallet for did: " ++ did))
              | Some hex =>
                  ret {| publicKeyBase58 := hexToBase58 w hex;
                         keyResult_blockchainAccountId := blockchainAccountId |}
              end
          end
      end
  end.

(** Lines 199-215. *)
Definition getSigningKey (wallet : Wallet) (publicKeyBase58 : string)
  : M SigningKey :=
  match walletKind wallet with
  | OtherWallet =>
      throw (new_CredoError
               "Incorrect wallet type: Ethereum Module currently only supports Askar wallet")
  | _ =>
      keyEntry <- settle (fetchKey wallet publicKeyBase58) ;;
      match keyEntry with
      | None => throw (new_WalletError "Key not found in wallet")
      | Some secretBytes =>
          signingKey <- settle (new_SigningKey w secretBytes) ;;
          ret signingKey
      end
  end.

(** Lines 244-246. *)
Definition resolveDID (self : LedgerService) (did : string) : M DIDResolutionResult :=
  settle (resolver self did).

(** The four settings [createSchema] needs, once narrowed. *)
Record Settings : Type :=
  { the_contractAddress : string;
    the_rpcUrl : string;
    the_fileServerUrl : string;
    the_fileServerToken : string }.

(** Lines 71-85: the checks made before the [try] block. *)
Definition createSchema_checks (self : LedgerService) (options : SchemaCreateOptions)
  : M Settings :=
  match configured (schemaManagerContractAddress self),
        configured (service_rpcUrl self),
        configured (fileServerUrl self),
        configured (fileServerToken self) with
  | Some a, Some r, Some u, Some t =>
      if isBlank (did options)
      then throw (new_SchemaCreationError "DID is required and cannot be empty" None)
      else if isBlank (schemaName options)
      then throw (new_SchemaCreationError
                    "Schema name is required and cannot be empty" None)
      else if (Object_keys_length (schema options) =? 0)%nat
      then throw (new_SchemaCreationError
                    "Schema must be a valid object and not empty" None)
      else ret {| the_contractAddress := a; the_rpcUrl := r;
                  the_fileServerUrl := u; the_fileServerToken := t |}
  | _, _, _, _ =>
      throw (new_SchemaCreationError
               "schemaManagerContractAddress, rpcUrl, fileServeUrl and fileServerToken must be defined and not empty"
               None)
  end.

(** What lines 90-106 leave in scope for the two concurrent calls. *)
Record Prepared : Type :=
  { ethSchemaRegistry : SchemaRegistry;
    fresh_schemaId : string;
    schemaResource : ResourcePayload }.

(** Lines 90-106. *)
Definition createSchema_prepare (agentContext : AgentContext)
           (options : SchemaCreateOptions) (settings : Settings) : M Prepared :=
  keyResult <- getPublicKeyFromDid agentContext (did options) ;;
  if negb (truthy (publicKeyBase58 keyResult))
  then throw (new_CredoError "Public Key not found in wallet")
  else
    signingKey <- getSigningKey (wallet agentContext) (publicKeyBase58 keyResult) ;;
    ethSchemaRegistry <-
      EthereumSchemaRegistry.new w
        {| contractAddress := the_contractAddress settings;
           rpcUrl := the_rpcUrl settings;
           signingKey := Some signingKey |} ;;
    let schemaId := utils_uuid w in
    address <- settle (parseAddress w (keyResult_blockchainAccountId keyResult)) ;;
    schemaResource <-
      schemaHelper.buildSchemaResource w (did options) schemaId (schemaName options)
                                       (schema options) address ;;
    ret {| ethSchemaRegistry := ethSchemaRegistry;
           fresh_schemaId := schemaId;
           schemaResource := schemaResource |}.

(** The on-chain write and the upload of lines 110-111. *)
Definition blockchainWrite (p : Prepared) : M ContractTransactionReceipt :=
  EthereumSchemaRegistry.createSchema w (ethSchemaRegistry p) (fresh_schemaId p)
    (JSON_stringify w (ResourcePayload_toJSON (schemaResource p))).

Definition fileUpload (options : SchemaCreateOptions) (settings : Settings)
           (p : Prepared) : M AxiosResponse :=
  schemaHelper.uploadSchemaFile w (fresh_schemaId p) (schema options)
    (the_fileServerUrl settings) (the_fileServerToken settings).

(** Line 118: [(reason?.message || reason?.toString() || '').toLowerCase()]. *)
Definition errMsg (reason : Thrown) : string :=
  toLowerCase
    (match message reason with
     | Some m => if truthy m then m else optOrElse (optToString reason) ""
     | None => optOrElse (optToString reason) ""
     end).

(** Lines 109-146.  Both calls run to settlement; each one's events are
    kept together, the write's first. *)
Definition createSchema_join (options : SchemaCreateOptions) (settings : Settings)
           (p : Prepared) : M SchemaCreationResult :=
  blockchainResponse <- allSettled1 (blockchainWrite p) ;;
  uploadResponse <- allSettled1 (fileUpload options settings p) ;;
  match blockchainResponse with
  | Rejected reason =>
      if includes (errMsg reason) "insufficient funds"
         || includes (errMsg reason) "insufficient balance"
      then throw (new_SchemaCreationError "Insufficient funds to pay for gas fees"
                                          (optional reason))
      else throw (new_SchemaCreationError "Blockchain transaction failed"
                                          (optional reason))
  | Fulfilled result =>
      match uploadResponse with
      | Rejected reason =>
          emit (Log Warn ("File server upload failed for schema " ++ fresh_schemaId p
                            ++ ": " ++ optOrElse (message reason) "Unknown error"))
      | Fulfilled _ => ret tt
      end ;;;
      if negb (truthy (hash result))
      then throw (new_SchemaCreationError "Invalid response from blockchain" None)
      else
        let response := {| result_did := did options;
                           schemaId := fresh_schemaId p;
                           schemaTxnHash := Some (hash result) |} in
        emit (Log Info ("Successfully created schema on ledger for DID: "
                          ++ did options)) ;;;
        ret response
  end.

(** Lines 90-146: the [try] block. *)
Definition createSchema_try (agentContext : AgentContext)
           (options : SchemaCreateOptions) (settings : Settings)
  : M SchemaCreationResult :=
  p <- createSchema_prepare agentContext options settings ;;
  createSchema_join options settings p.

(** Lines 148-157: the [catch] block. *)
Definition createSchema_catch (options : SchemaCreateOptions) (error : Thrown)
  : M SchemaCreationResult :=
  if instanceof error EthereumLedgerErrorC then throw error
  else
    let errorMessage :=
      if instanceof error ErrorC then interp (message error)
      else "Unknown error occurred" in
    emit (Log ErrorLevel ("Schema creation failed for DID: " ++ did options)) ;;;
    throw (new_SchemaCreationError errorMessage
             (if instanceof error ErrorC then Some error else None)).

(** Lines 67-158. *)
Definition createSchema (self : LedgerService) (agentContext : AgentContext)
           (options : SchemaCreateOptions) : M SchemaCreationResult :=
  settings <- createSchema_checks self options ;;
  emit (Log Info ("Creating schema on ledger: " ++ did options)) ;;;
  try_catch (createSchema_try agentContext options settings)
            (createSchema_catch options).

(** Lines 171-186: the [try] block.  [getSchemaById] of line 181 is the
    registry's lookup by address and id. *)
Definition getSchemaByDidAndSchemaId_try (self : LedgerService)
           (agentContext : AgentContext) (did schemaId : string) : M string :=
  match configured (schemaManagerContractAddress self),
        configured (service_rpcUrl self) with
  | Some a, Some r =>
      ethSchemaRegistry <-
        EthereumSchemaRegistry.new w
          {| contractAddress := a; rpcUrl := r; signingKey := None |} ;;
      keyResult <- getPublicKeyFromDid agentContext did ;;
      address <- settle (parseAddress w (keyResult_blockchainAccountId keyResult)) ;;
      response <- EthereumSchemaRegistry.getSchema w ethSchemaRegistry address schemaId ;;
      match response with
      | None => throw (new_SchemaRetrievalError schemaId "Schema not found on ledger" None)
      | Some response => ret response
      end
  | _, _ =>
      throw (new_SchemaCreationError
               "schemaManagerContractAddress and rpcUrl must be defined and not empty"
               None)
  end.

(** Lines 188-196: the [catch] block. *)
Definition getSchemaByDidAndSchemaId_catch (did schemaId : string) (error : Thrown)
  : M string :=
  if instanceof error EthereumLedgerErrorC then throw error
  else
    let errorMessage :=
      if instanceof error ErrorC then interp (message error)
      else "Unknown error occurred" in
    emit (Log ErrorLevel ("Schema retrieval failed for DID: " ++ did
                            ++ ", Schema ID: " ++ schemaId)) ;;;
    throw (new_SchemaRetrievalError schemaId errorMessage
             (if instanceof error ErrorC then Some error else None)).

(** Lines 160-197. *)
Definition getSchemaByDidAndSchemaId (self : LedgerService)
           (agentContext : AgentContext) (did schemaId : string) : M string :=
  if isBlank did
  then throw (new_SchemaRetrievalError schemaId "DID is required and cannot be empty" None)
  else if isBlank schemaId
  then throw (new_SchemaRetrievalError schemaId
                "Schema ID is required and cannot be empty" None)
  else
    emit (Log Info ("Getting schema from ledger: " ++ did
                      ++ " and schemaId: " ++ schemaId)) ;;;
    try_catch (getSchemaByDidAndSchemaId_try self agentContext did schemaId)
              (getSchemaByDidAndSchemaId_catch did schemaId).

End WithWorld.
End EthereumLedgerService.

(* ====================================================================== *)
(** ** src/dids/EthrDidResolver.ts *)

Module EthereumDidResolver.
Section WithWorld.
Variable w : World.

Definition unstableContext : string := "https://w3id.org/security/v3-unstable".
Definition secp256k1Context : string :=
  "https://w3id.org/security/suites/secp256k1-2019/v1".

(** [array.includes(x)] on an array of strings. *)
Definition Array_includes (l : list string) (x : string) : bool :=
  existsb (fun y => y =? x) l.

(** Lines 27-33: the new [@context] array. *)
Definition normalizeContext (ctx : list string) : list string :=
  let filtered := filter (fun ctx => negb (ctx =? unstableContext)) ctx in
  if negb (Array_includes filtered secp256k1Context)
  then (filtered ++ [secp256k1Context])%list
  else filtered.

(** Lines 26-34.  Every array is truthy, the empty one too. *)
Definition normalizeDocument (didDocument : option JsonDidDocument)
  : option JsonDidDocument :=
  match didDocument with
  | Some doc =>
      match context doc with
      | ContextArray items =>
          Some {| context := ContextArray (normalizeContext items);
                  document_id := document_id doc;
                  document_members := document_members doc |}
      | _ => didDocument
      end
  | None => None
  end.

(** Lines 18-50. *)
Definition resolve (agentContext : AgentContext) (did : string)
  : M DidResolutionResult :=
  ethereumLedgerService <- settle (dependencyManager_resolve agentContext) ;;
  let didDocumentMetadata : JsObject := [] in
  try_catch
    (resolved <- EthereumLedgerService.resolveDID ethereumLedgerService did ;;
     let didDocument := normalizeDocument (resolved_didDocument resolved) in
     instance <- settle (JsonTransformer_fromJSON w didDocument) ;;
     ret {| didDocument := instance;
            didDocumentMetadata := resolved_didDocumentMetadata resolved;
            didResolutionMetadata := resolved_didResolutionMetadata resolved |})
    (fun error =>
       ret {| didDocument := None;
              didDocumentMetadata := didDocumentMetadata;
              didResolutionMetadata :=
                {| error := Some "notFound";
                   metadata_message :=
                     Some ("resolver_error: Unable to resolve did '" ++ did
                             ++ "': " ++ toString error);
                   contentType := None |} |}).

End WithWorld.
End EthereumDidResolver.

(* ====================================================================== *)
(** ** A concrete world, to run the model *)

Module Sample.

Definition quoteChar : ascii := ascii_of_nat 34.
Definition quoteString : string := String quoteChar EmptyString.

Definition isDigit (c : ascii) : bool :=
  ((48 <=? codeUnit c) && (codeUnit c <=? 57))%nat.

Definition isHexDigit (c : ascii) : bool :=
  (isDigit c
   || ((65 <=? codeUnit c) && (codeUnit c <=? 70))
   || ((97 <=? codeUnit c) && (codeUnit c <=? 102)))%nat.

Fixpoint allChars (p : ascii -> bool) (s : string) : bool :=
  match s with
  | EmptyString => true
  | String c r => p c && allChars p r
  end.

Fixpoint drop (n : nat) (s : string) : string :=
  match n, s with
  | S n', String _ r => drop n' r
  | _, _ => s
  end.

(** *** A recogniser of JSON texts, for [JSON.parse] *)

Definition isJsonSpace (c : ascii) : bool :=
  ((codeUnit c =? 32) || (codeUnit c =? 9) || (codeUnit c =? 10)
   || (codeUnit c =? 13))%nat.

Fixpoint skipSpace (s : string) : string :=
  match s with
  | String c r => if isJsonSpace c then skipSpace r else s
  | EmptyString => EmptyString
  end.

Inductive StringState : Type := Plain | Escape | Hex (remaining : nat).

(** The rest of the text after the closing quote of a string. *)
Fixpoint stringBody (st : StringState) (s : string) : option string :=
  match s with
  | EmptyString => None
  | String c r =>
      match st with
      | Plain =>
          if Ascii.eqb c quoteChar then Some r
          else if Ascii.eqb c "\" then stringBody Escape r
          else if (codeUnit c <? 32)%nat then None
          else stringBody Plain r
      | Escape =>
          if Ascii.eqb c "u" then stringBody (Hex 3) r
          else if Ascii.eqb c quoteChar || includes "\/bfnrt" (String c EmptyString)
          then stringBody Plain r
          else None
      | Hex n =>
          if isHexDigit c
          then stringBody (match n with 0 => Plain | S n' => Hex n' end) r
          else None
      end
  end.

Fixpoint digits (s : string) : string :=
  match s with
  | String c r => if isDigit c then digits r else s
  | EmptyString => EmptyString
  end.

Definition digits1 (s : string) : option string :=
  match s with
  | String c r => if isDigit c then Some (digits r) else None
  | EmptyString => None
  end.

Definition exponent (s : string) : option string :=
  match s with
  | String c r =>
      if Ascii.eqb c "e" || Ascii.eqb c "E" then
        match r with
        | String d r' =>
            if Ascii.eqb d "+" || Ascii.eqb d "-" then digits1 r' else digits1 r
        | EmptyString => None
        end
      else Some s
  | EmptyString => Some s
  end.

Definition fraction (s : string) : option string :=
  match s with
  | String c r =>
      if Ascii.eqb c "." then
        match digits1 r with
        | Some r' => exponent r'
        | None => None
        end
      else exponent s
  | EmptyString => Some s
  end.

Definition number (s : string) : option string :=
  let s := match s with
           | String c r => if Ascii.eqb c "-" then r else s
           | EmptyString => s
           end in
  match s with
  | String c r =>
      if Ascii.eqb c "0" then fraction r
      else if isDigit c then fraction (digits r)
      else None
  | EmptyString => None
  end.

(** [elements] and [members] read what follows an opening bracket or
    brace, given the recogniser [value] of one value. *)
Fixpoint elements (value : string -> option string) (fuel : nat) (s : string)
  : option string :=
  match fuel with
  | 0 => None
  | S fuel =>
      match value s with
      | Some r =>
          match skipSpace r with
          | String c r' =>
              if Ascii.eqb c "," then elements value fuel r'
              else if Ascii.eqb c "]" then Some r'
              else None
          | EmptyString => None
          end
      | None => None
      end
  end.

Fixpoint members (value : string -> option string) (fuel : nat) (s : string)
  : option string :=
  match fuel with
  | 0 => None
  | S fuel =>
      match skipSpace s with
      | String q r =>
          if Ascii.eqb q quoteChar then
            match stringBody Plain r with
            | Some r1 =>
                match skipSpace r1 with
                | String c r2 =>
                    if Ascii.eqb c ":" then
                      match value r2 with
                      | Some r3 =>
                          match skipSpace r3 with
                          | String d r4 =>
                              if Ascii.eqb d "," then members value fuel r4
                              else if Ascii.eqb d "}" then Some r4
                              else None
                          | EmptyString => None
                          end
                      | None => None
                      end
                    else None
                | EmptyString => None
                end
            | None => None
            end
          else None
      | EmptyString => None
      end
  end.

Fixpoint value (fuel : nat) (s : string) : option string :=
  match fuel with
  | 0 => None
  | S fuel' =>
      match skipSpace s with
      | EmptyString => None
      | String c r as s' =>
          if Ascii.eqb c quoteChar then stringBody Plain r
          else if Ascii.eqb c "[" then
            match skipSpace r with
            | String d r' =>
                if Ascii.eqb d "]" then Some r' else elements (value fuel') fuel r
            | EmptyString => None
            end
          else if Ascii.eqb c "{" then
            match skipSpace r with
            | String d r' =>
                if Ascii.eqb d "}" then Some r' else members (value fuel') fuel r
            | EmptyString => None
            end
          else if prefix "null" s' then Some (drop 4 s')
          else if prefix "true" s' then Some (drop 4 s')
          else if prefix "false" s' then Some (drop 5 s')
          else number s'
      end
  end.

Definition jsonText (s : string) : bool :=
  match value (S (String.length s)) s with
  | Some r => match skipSpace r with EmptyString => true | _ => false end
  | None => false
  end.

(** *** [JSON.stringify] on [JsValue] *)

Definition hexDigit (n : nat) : ascii :=
  if (n <? 10)%nat then ascii_of_nat (48 + n) else ascii_of_nat (87 + n).

Definition escapeChar (c : ascii) : string :=
  let n := codeUnit c in
  if Ascii.eqb c quoteChar then "\" ++ quoteString
  else if Ascii.eqb c "\" then "\\"
  else if (n =? 8)%nat then "\b"
  else if (n =? 9)%nat then "\t"
  else if (n =? 10)%nat then "\n"
  else if (n =? 12)%nat then "\f"
  else if (n =? 13)%nat then "\r"
  else if (n <? 32)%nat
  then "\u00" ++ String (hexDigit (n / 16)) (String (hexDigit (n mod 16)) EmptyString)
  else String c EmptyString.

Fixpoint escape (s : string) : string :=
  match s with
  | EmptyString => EmptyString
  | String c r => escapeChar c ++ escape r
  end.

Definition quoted (s : string) : string := quoteString ++ escape s ++ quoteString.

Fixpoint stringify (v : JsValue) : string :=
  match v with
  | JNull => "null"
  | JBool true => "true"
  | JBool false => "false"
  | JNum n => NilZero.string_of_int (Z.to_int n)
  | JStr s => quoted s
  | JArr items =>
      "[" ++ (fix go (l : list JsValue) : string :=
                match l with
                | [] => ""
                | x :: r =>
                    stringify x ++ match r with [] => "" | _ => "," ++ go r end
                end) items ++ "]"
  | JObj fields =>
      "{" ++ (fix go (l : list (string * JsValue)) : string :=
                match l with
                | [] => ""
                | (k, x) :: r =>
                    quoted k ++ ":" ++ stringify x
                      ++ match r with [] => "" | _ => "," ++ go r end
                end) fields ++ "}"
  end.

(** *** The other collaborators

    The digest, the base-58 encoding and the two helpers of
    [src/utils/utils.ts] are simple functions of the right type; nothing
    proved below depends on which. *)

(** The form of an address: [0x] and forty hexadecimal digits.  ethers
    also refuses an address of mixed case whose capitals are not those of
    its EIP-55 checksum; the addresses used below carry their checksum. *)
Definition syntacticAddress (s : string) : bool :=
  prefix "0x" s && (String.length s =? 42)%nat && allChars isHexDigit (drop 2 s).

(** A digest that tells all texts apart: the text in hexadecimal. *)
Fixpoint hexOfText (s : string) : string :=
  match s with
  | EmptyString => EmptyString
  | String c r =>
      String (hexDigit (codeUnit c / 16)) (String (hexDigit (codeUnit c mod 16))
                                                  (hexOfText r))
  end.

(** The part of a blockchain account id after its last colon. *)
Fixpoint afterLastColon (s : string) : string :=
  match s with
  | EmptyString => EmptyString
  | String c r =>
      if includes r ":" then afterLastColon r
      else if Ascii.eqb c ":" then r else s
  end.

Definition firstAccountId (methods : list VerificationMethod) : Outcome string :=
  match List.find (fun m => optTruthy (blockchainAccountId m)) methods with
  | Some m => Fulfilled (interp (blockchainAccountId m))
  | None => Rejected (new_Error "no blockchain account id")
  end.

Definition registryAddress : string := "0x70F88e12EaE54548839f320A5958C49421512A84".
Definition ownerAddress : string := "0x4a1fBC1dd5A05ee4e0F2C4DcBB2a52b3a5B1CE9f".
Definition nodeUrl : string := "https://eth-sepolia.example/v2/key".
Definition theDid : string :=
  "did:ethr:sepolia:0x022527341df022c9b898999cf6035ed3addca5d30e703028deeb4408f890f3baca".
Definition storedSchemaId : string := "6f1c7a5e-58d1-4b1e-9a35-0c2b1f1d2a10".
Definition storedSchema : string := "{" ++ quoted "resourceName" ++ ":" ++ quoted "TestCollegeSchema" ++ "}".

Definition receipt : ContractTransactionReceipt :=
  {| hash := "0x9d3c51b7e2a44f0c8a56b1e0c7f2d9a1b3e4f5a6978877665544332211000fed";
     blockNumber := 742;
     status := 1 |}.

(** The world, given how the chain answers a write and the file server a
    post.  The chain holds [storedSchema] at [ownerAddress] under
    [storedSchemaId]. *)
Definition world (write : Outcome ContractTransactionReceipt)
           (post : Outcome AxiosResponse) : World :=
  {| JSON_parse_ok := jsonText;
     JSON_stringify := stringify;
     Date_toISOString := "2025-03-14T09:26:53.589Z";
     isAddress := syntacticAddress;
     ethers_connect := fun _ => None;
     contract_createSchema := fun _ _ _ => write;
     contract_schemas :=
       fun _ address id =>
         if (address =? ownerAddress) && (id =? storedSchemaId)
         then Fulfilled storedSchema else Fulfilled "";
     new_SigningKey := fun secret => Fulfilled {| privateKey := secret |};
     keccak256_hex := hexOfText;
     axios := fun _ => post;
     utils_uuid := "3f2504e0-4f89-41d3-9a0c-0305e82c3301";
     hexToBase58 := fun hex => "z" ++ hex;
     JsonTransformer_fromJSON :=
       fun json => Fulfilled (option_map DidDocumentInstance json);
     getPreferredKey := firstAccountId;
     parseAddress := fun accountId => Fulfilled (afterLastColon accountId) |}.

Definition signer : SigningKey := {| privateKey := "secret-bytes" |}.

(** A registry client built with a signing key, and one built as line 174
    of the ledger service asks, without. *)
Definition registry : SchemaRegistry :=
  {| provider := nodeUrl;
     registry_wallet := Some signer;
     schemaRegistryContract :=
       {| contractAddress := registryAddress; rpcUrl := nodeUrl;
          signingKey := Some signer |} |}.

Definition accepted : AxiosResponse := {| response_status := 201; response_data := "" |}.

Definition serverError : Thrown :=
  ThrowErr (Foreign "AxiosError") "AxiosError" "Request failed with status code 500"
           (Some "ERR_BAD_RESPONSE") None None None None.

Definition insufficientFunds : Thrown :=
  ThrowErr (Foreign "EthersError") "Error"
           "insufficient funds for intrinsic transaction cost"
           (Some "INSUFFICIENT_FUNDS") None None None None.

Definition nonceExpired : Thrown :=
  ThrowErr (Foreign "EthersError") "Error" "nonce has already been used"
           (Some "NONCE_EXPIRED") None None None None.

Definition method1 : VerificationMethod :=
  {| vm_id := theDid ++ "#controller";
     publicKeyHex := None;
     blockchainAccountId := Some ("eip155:11155111:" ++ ownerAddress) |}.

Definition method2 : VerificationMethod :=
  {| vm_id := theDid ++ "#controllerKey";
     publicKeyHex :=
       Some "022527341df022c9b898999cf6035ed3addca5d30e703028deeb4408f890f3baca";
     blockchainAccountId := None |}.

Definition service (resolve : string -> Outcome DIDResolutionResult) : LedgerService :=
  {| service_rpcUrl := Some nodeUrl;
     schemaManagerContractAddress := Some registryAddress;
     fileServerToken := Some "token";
     fileServerUrl := Some "https://files.example";
     resolver := resolve |}.

Definition agentContext (resolve : string -> Outcome DIDResolutionResult)
  : AgentContext :=
  {| wallet := {| walletKind := AskarWallet;
                  fetchKey := fun _ => Fulfilled (Some "secret-bytes") |};
     findCreatedDid :=
       fun did =>
         if did =? theDid
         then Fulfilled (Some {| record_didDocument :=
                                   Some {| verificationMethod :=
                                             Some [method1; method2] |} |})
         else Fulfilled None;
     dependencyManager_resolve := Fulfilled (service resolve) |}.

Definition unreachable : string -> Outcome DIDResolutionResult :=
  fun _ => Rejected (new_Error "could not detect network").

Definition options : SchemaCreateOptions :=
  {| did := theDid;
     schemaName := "TestCollegeSchema";
     schema := [("type", JStr "object"); ("required", JArr [JStr "name"])] |}.

Definition noNode : LedgerService :=
  {| service_rpcUrl := Some "";
     schemaManagerContractAddress := Some registryAddress;
     fileServerToken := None;
     fileServerUrl := None;
     resolver := unreachable |}.

Definition w3cContext : string := "https://www.w3.org/ns/did/v1".

Definition resolvedWith (ctx : ContextField) : string -> Outcome DIDResolutionResult :=
  fun did =>
    Fulfilled {| resolved_didDocument :=
                   Some {| context := ctx; document_id := did; document_members := [] |};
                 resolved_didDocumentMetadata := [];
                 resolved_didResolutionMetadata :=
                   {| error := None; metadata_message := None;
                      contentType := Some "application/did+ld+json" |} |}.

Definition here : World := world (Fulfilled receipt) (Fulfilled accepted).

(** The world in which the file server answers 500. *)
Definition serverDown : World := world (Fulfilled receipt) (Rejected serverError).

(** The worlds in which the chain refuses the write. *)
Definition broke : World := world (Rejected insufficientFunds) (Fulfilled accepted).
Definition stale : World := world (Rejected nonceExpired) (Fulfilled accepted).

Definition settings : EthereumLedgerService.Settings :=
  {| EthereumLedgerService.the_contractAddress := registryAddress;
     EthereumLedgerService.the_rpcUrl := nodeUrl;
     EthereumLedgerService.the_fileServerUrl := "https://files.example";
     EthereumLedgerService.the_fileServerToken := "token" |}.

(** What lines 90-106 produce for [options] in these worlds. *)
Definition prepared : EthereumLedgerService.Prepared :=
  {| EthereumLedgerService.ethSchemaRegistry := registry;
     EthereumLedgerService.fresh_schemaId := "3f2504e0-4f89-41d3-9a0c-0305e82c3301";
     EthereumLedgerService.schemaResource :=
       {| resourceURI := theDid ++ "/resources/3f2504e0-4f89-41d3-9a0c-0305e82c3301";
          resourceCollectionId := ownerAddress;
          resourceId := "3f2504e0-4f89-41d3-9a0c-0305e82c3301";
          resourceName := "TestCollegeSchema";
          resourceType := "W3C-schema";
          mediaType := "";
          created := "2025-03-14T09:26:53.589Z";
          checksum := hexOfText "[object Object]";
          previousVersionId := "";
          nextVersionId := "" |} |}.

(** What [uploadSchemaFile] raises when the file server answers 500. *)
Definition uploadFailure : Thrown :=
  new_Error "Error occurred in uploadSchemaFile function AxiosError: Request failed with status code 500 ".

(** What the registry client raises for the two refusals of the chain. *)
Definition fundsRejection : Thrown :=
  new_ContractError "Transaction failed: insufficient funds for intrinsic transaction cost"
                    None (Some insufficientFunds).

Definition nonceRejection : Thrown :=
  new_ContractError "Transaction failed: nonce has already been used"
                    None (Some nonceExpired).



Definition otherSchema : JsObject := [("type", JStr "array")].

End Sample.

(* ====================================================================== *)
(** ** The rest of the registry client *)

(** The functions of the contract that [World] leaves out:
    [adminCreateSchema] and [transferOwnership], each followed by [wait()],
    [getSchemaIds] and [owner]. *)
Record ContractSurface : Type :=
  { contract_adminCreateSchema :
      SchemaRegistryConfig -> string -> string -> string
      -> Outcome ContractTransactionReceipt;
    contract_getSchemaIds : SchemaRegistryConfig -> string -> Outcome (list string);
    contract_owner : SchemaRegistryConfig -> Outcome string;
    contract_transferOwnership :
      SchemaRegistryConfig -> string -> Outcome ContractTransactionReceipt }.

Module EthereumSchemaRegistryOps.
Section WithWorld.
Variable w : World.
Variable c : ContractSurface.

(** Lines 118-133. *)
Definition adminCreateSchema (self : SchemaRegistry) (address schemaId json : string)
  : M ContractTransactionReceipt :=
  match registry_wallet self with
  | None =>
      throw (new_ValidationError "Wallet is required for transaction operations" None)
  | Some _ =>
      EthereumSchemaRegistry.validateAddress w address ;;;
      EthereumSchemaRegistry.validateSchemaId schemaId ;;;
      EthereumSchemaRegistry.validateJson w json ;;;
      try_catch
        (emit (ContractCall "adminCreateSchema" [address; schemaId; json]) ;;;
         schemaTxnReceipt <-
           settle (contract_adminCreateSchema c (schemaRegistryContract self)
                                              address schemaId json) ;;
         ret schemaTxnReceipt)
        EthereumSchemaRegistry.handleContractError
  end.

(** Lines 156-165. *)
Definition getSchemaIds (self : SchemaRegistry) (address : string) : M (list string) :=
  EthereumSchemaRegistry.validateAddress w address ;;;
  try_catch
    (emit (ContractCall "getSchemaIds" [address]) ;;;
     schemaIds <- settle (contract_getSchemaIds c (schemaRegistryContract self) address) ;;
     ret schemaIds)
    EthereumSchemaRegistry.handleContractError.

(** Lines 170-177. *)
Definition getOwner (self : SchemaRegistry) : M string :=
  try_catch
    (emit (ContractCall "owner" []) ;;;
     owner <- settle (contract_owner c (schemaRegistryContract self)) ;;
     ret owner)
    EthereumSchemaRegistry.handleContractError.

(** Lines 182-197. *)
Definition transferOwnership (self : SchemaRegistry) (newOwner : string)
  : M ContractTransactionReceipt :=
  match registry_wallet self with
  | None =>
      throw (new_ValidationError "Wallet is required for transaction operations" None)
  | Some _ =>
      EthereumSchemaRegistry.validateAddress w newOwner ;;;
      try_catch
        (emit (ContractCall "transferOwnership" [newOwner]) ;;;
         receipt <-
           settle (contract_transferOwnership c (schemaRegistryContract self) newOwner) ;;
         ret receipt)
        EthereumSchemaRegistry.handleContractError
  end.

End WithWorld.
End EthereumSchemaRegistryOps.

(* ====================================================================== *)
(** ** src/EthereumModuleConfig.ts and the constructor of the service *)

(** ethr-did-resolver: the configuration of the resolver, a list of
    networks. *)
Record NetworkConfiguration : Type :=
  { network_name : string;
    network_chainId : nat;
    network_rpcUrl : string;
    network_registry : string }.

Definition ConfigurationOptions : Type := list NetworkConfiguration.

Module EthereumModuleConfig.

(** EthereumModuleConfigOptions, the version with [config]. *)
Record Options : Type :=
  { options_config : ConfigurationOptions;
    options_rpcUrl : option string;
    options_fileServerToken : option string;
    options_schemaManagerContractAddress : option string;
    options_serverUrl : option string }.

(** The fields of the class. *)
Record t : Type :=
  { rpcUrl : option string;
    fileServerToken : option string;
    schemaManagerContractAddress : option string;
    serverUrl : option string;
    config : ConfigurationOptions }.

(** The constructor. *)
Definition new (options : Options) : t :=
  {| config := options_config options;
     rpcUrl := options_rpcUrl options;
     fileServerToken := options_fileServerToken options;
     schemaManagerContractAddress := options_schemaManagerContractAddress options;
     serverUrl := options_serverUrl options |}.

End EthereumModuleConfig.

(** EthereumLedgerService.ts, lines 56-62: the constructor of the service.
    [getResolver] stands for [new Resolver(getResolver(...))], the lookup
    function of the resolver built for a configuration. *)
Definition new_EthereumLedgerService
           (getResolver : ConfigurationOptions -> string -> Outcome DIDResolutionResult)
           (config : EthereumModuleConfig.t) : LedgerService :=
  {| resolver := getResolver (EthereumModuleConfig.config config);
     service_rpcUrl := EthereumModuleConfig.rpcUrl config;
     schemaManagerContractAddress :=
       EthereumModuleConfig.schemaManagerContractAddress config;
     fileServerToken := EthereumModuleConfig.fileServerToken config;
     fileServerUrl := EthereumModuleConfig.serverUrl config |}.

(* ====================================================================== *)
(** ** More of the concrete world *)

Module Scenario.

Definition adminAddress : string := "0x8ba1f109551bD432803012645Ac136ddd64DBA72".

Definition schemaExists : Thrown :=
  ThrowErr (Foreign "EthersError") "Error" "execution reverted: SCHEMA_EXISTS"
           (Some "CALL_EXCEPTION") (Some "SCHEMA_EXISTS") None None None.

Definition notOwner : Thrown :=
  ThrowErr (Foreign "EthersError") "Error" "execution reverted: NOT_OWNER"
           (Some "CALL_EXCEPTION") (Some "NOT_OWNER") None None None.

Definition timeout : Thrown :=
  ThrowErr (Foreign "EthersError") "Error" "request timeout"
           (Some "NETWORK_ERROR") None None None None.

(** The world in which the chain already holds the schema id. *)
Definition taken : World := Sample.world (Rejected schemaExists) (Fulfilled Sample.accepted).

(** A contract whose owner is [adminAddress]; every other caller is
    refused the owner's functions. *)
Definition contract : ContractSurface :=
  {| contract_adminCreateSchema := fun _ _ _ _ => Rejected notOwner;
     contract_getSchemaIds :=
       fun _ address =>
         if address =? Sample.ownerAddress
         then Fulfilled [Sample.storedSchemaId] else Fulfilled [];
     contract_owner := fun _ => Fulfilled adminAddress;
     contract_transferOwnership := fun _ _ => Rejected notOwner |}.

Definition registryConfig : SchemaRegistryConfig :=
  {| contractAddress := Sample.registryAddress;
     rpcUrl := Sample.nodeUrl;
     signingKey := Some Sample.signer |}.

Definition network : NetworkConfiguration :=
  {| network_name := "sepolia";
     network_chainId := 111;
     network_rpcUrl := Sample.nodeUrl;
     network_registry := "0x485cFb9cdB84c0a5AfE69b75E2e79497Fc2256Fc" |}.

(** Module options that name no file server. *)
Definition withoutFileServer : EthereumModuleConfig.Options :=
  {| EthereumModuleConfig.options_config := [network];
     EthereumModuleConfig.options_rpcUrl := Some Sample.nodeUrl;
     EthereumModuleConfig.options_fileServerToken := Some "token";
     EthereumModuleConfig.options_schemaManagerContractAddress :=
       Some Sample.registryAddress;
     EthereumModuleConfig.options_serverUrl := None |}.

(** A stored document whose only method has no key material. *)
Definition keyless : AgentContext :=
  {| wallet := {| walletKind := AskarWallet; fetchKey := fun _ => Fulfilled None |};
     findCreatedDid :=
       fun _ => Fulfilled (Some {| record_didDocument :=
                                     Some {| verificationMethod :=
                                               Some [Sample.method1] |} |});
     dependencyManager_resolve := Fulfilled (Sample.service Sample.unreachable) |}.

Definition unknownDid : string :=
  "did:ethr:sepolia:0x1111111111111111111111111111111111111111".

Definition optionsFor (did : string) : SchemaCreateOptions :=
  {| did := did; schemaName := "TestSchema"; schema := schema Sample.options |}.

End Scenario.

(* ====================================================================== *)
(** ** A world that is less forgiving *)

Module Edge.

(** What the dependency manager throws for a class that was never
    registered. *)
Definition unregistered : Thrown :=
  new_Error "Attempted to resolve unregistered dependency token: EthereumLedgerService".

(** An agent whose dependency manager does not know the ledger service. *)
Definition bare : AgentContext :=
  {| wallet := wallet (Sample.agentContext Sample.unreachable);
     findCreatedDid := findCreatedDid (Sample.agentContext Sample.unreachable);
     dependencyManager_resolve := Rejected unregistered |}.

(** How the resolver library answers for an identifier it refuses: with a
    value, a null document and the failure in the metadata. *)
Definition refusal : DIDResolutionResult :=
  {| resolved_didDocument := None;
     resolved_didDocumentMetadata := [];
     resolved_didResolutionMetadata :=
       {| error := Some "invalidDid";
          metadata_message := Some "Not a valid did:ethr: did:ethr:sepolia:0x12";
          contentType := None |} |}.

Definition refusing : string -> Outcome DIDResolutionResult :=
  fun _ => Fulfilled refusal.

(** What the transformer throws for a null document. *)
Definition nullDocument : Thrown :=
  new_TypeError "Cannot read properties of null (reading 'constructor')".

(** [Sample.here], with a transformer that throws on a null document. *)
Definition strict : World :=
  {| JSON_parse_ok := JSON_parse_ok Sample.here;
     JSON_stringify := JSON_stringify Sample.here;
     Date_toISOString := Date_toISOString Sample.here;
     isAddress := isAddress Sample.here;
     ethers_connect := ethers_connect Sample.here;
     contract_createSchema := contract_createSchema Sample.here;
     contract_schemas := contract_schemas Sample.here;
     new_SigningKey := new_SigningKey Sample.here;
     keccak256_hex := keccak256_hex Sample.here;
     axios := axios Sample.here;
     utils_uuid := utils_uuid Sample.here;
     hexToBase58 := hexToBase58 Sample.here;
     JsonTransformer_fromJSON :=
       fun json =>
         match json with
         | Some document => Fulfilled (Some (DidDocumentInstance document))
         | None => Rejected nullDocument
         end;
     getPreferredKey := getPreferredKey Sample.here;
     parseAddress := parseAddress Sample.here |}.

End Edge.

(* ====================================================================== *)
(** ** Notions the properties are stated with *)

(** How often [x] occurs in a context list. *)
Definition occurrences (x : string) (l : list string) : nat := count_occ string_dec l x.

(** The error of line 172. *)
Definition retrievalSettingsError : Thrown :=
  new_SchemaCreationError
    "schemaManagerContractAddress and rpcUrl must be defined and not empty" None.

(** The [revertReason] of a [ContractError]. *)
Definition revertReason (e : Thrown) : option string :=
  match e with ThrowErr _ _ _ _ _ r _ _ => r | _ => None end.

(** The kinds of event. *)
Definition isContractCall (ev : Event) : bool :=
  match ev with ContractCall _ _ => true | _ => false end.

Definition isHttpPost (ev : Event) : bool :=
  match ev with HttpPost _ _ _ => true | _ => false end.

Definition isLog (ev : Event) : bool :=
  match ev with Log _ _ => true | _ => false end.

(** How many events of a kind a run has issued. *)
Definition count (kind : Event -> bool) (t : list Event) : nat :=
  List.length (filter kind t).

(** A string made of white space only. *)
Fixpoint allWhiteSpace (s : string) : bool :=
  match s with
  | EmptyString => true
  | String c r => isWhiteSpace c && allWhiteSpace r
  end.

(** The result of lines 41-48 of the resolver for a caught value [e]. *)
Definition notFound (did : string) (e : Thrown) : DidResolutionResult :=
  {| didDocument := None;
     didDocumentMetadata := [];
     didResolutionMetadata :=
       {| error := Some "notFound";
          metadata_message :=
            Some ("resolver_error: Unable to resolve did '" ++ did ++ "': "
                    ++ toString e);
          contentType := None |} |}.

(** The error of lines 72-74. *)
Definition creationSettingsError : Thrown :=
  new_SchemaCreationError
    "schemaManagerContractAddress, rpcUrl, fileServeUrl and fileServerToken must be defined and not empty"
    None.

(* ====================================================================== *)
(** * Properties *)

Unset Implicit Arguments.
Import EthereumDidResolver.

(** ** Computations *)

Lemma outcome_bind {A B} (m : M A) (k : A -> M B) :
  outcome (bind m k)
  = match outcome m with
    | Fulfilled a => outcome (k a)
    | Rejected e => Rejected e
    end.
Proof.
  destruct m as [t [a | e]]; simpl; [ destruct (k a) | ]; reflexivity.
Qed.

Lemma outcome_try_catch {A} (m : M A) (h : Thrown -> M A) :
  outcome (try_catch m h)
  = match outcome m with
    | Fulfilled a => Fulfilled a
    | Rejected e => outcome (h e)
    end.
Proof.
  destruct m as [t [a | e]]; simpl; [ | destruct (h e) ]; reflexivity.
Qed.

Lemma run_eta {A} (m : M A) : m = (trace m, outcome m).
Proof. destruct m; reflexivity. Qed.

Lemma bind_settle_fulfilled {A B} (a : A) (k : A -> M B) :
  bind (settle (Fulfilled a)) k = k a.
Proof. cbn. destruct (k a); reflexivity. Qed.

Lemma bind_ret {A B} (a : A) (k : A -> M B) : bind (ret a) k = k a.
Proof. apply bind_settle_fulfilled. Qed.

(** ** Strings *)

Lemma length_zero_falsy (s : string) : (String.length s =? 0)%nat = negb (truthy s).
Proof. destruct s; reflexivity. Qed.

(** The test [!s || s.trim().length === 0] of the registry is the test
    [!s?.trim()] of the service. *)
Lemma blank_test (s : string) :
  negb (truthy s) || (String.length (trim s) =? 0)%nat = isBlank s.
Proof.
  destruct s as [ | c s]; [ reflexivity | ].
  cbn [truthy negb orb]. apply length_zero_falsy.
Qed.

Lemma prefix_refl (s : string) : prefix s s = true.
Proof.
  induction s as [ | c s IH]; simpl; [ reflexivity | ].
  destruct (ascii_dec c c); [ exact IH | congruence ].
Qed.

Lemma includes_refl (s : string) : includes s s = true.
Proof. destruct s; cbn [includes]; rewrite prefix_refl; reflexivity. Qed.

Lemma includes_append_left (a s pat : string) :
  includes s pat = true -> includes (a ++ s) pat = true.
Proof.
  intros H. induction a as [ | c a IH]; simpl; [ exact H | ].
  rewrite IH. apply orb_true_r.
Qed.



(** ** Error classes *)

Lemma configured_truthy (o : option string) :
  EthereumLedgerService.configured o = None <-> optTruthy o = false.
Proof.
  destruct o as [s | ]; simpl; [ destruct (truthy s) | ]; split; congruence.
Qed.


(** ** The context list *)

Lemma Array_includes_In (l : list string) (x : string) :
  Array_includes l x = true <-> In x l.
Proof.
  unfold Array_includes. rewrite existsb_exists. split.
  - intros [y [Hy E]]. apply String.eqb_eq in E. congruence.
  - intros H. exists x. split; [ exact H | apply String.eqb_refl ].
Qed.

Lemma occurrences_filter_out (u : string) (l : list string) :
  occurrences u (filter (fun ctx => negb (ctx =? u)) l) = 0.
Proof.
  unfold occurrences. induction l as [ | y l IH]; simpl; [ reflexivity | ].
  destruct (String.eqb_spec y u) as [E | N]; simpl; [ exact IH | ].
  destruct (string_dec y u); [ contradiction | exact IH ].
Qed.

Lemma occurrences_filter_other (u x : string) (l : list string) :
  x <> u ->
  occurrences x (filter (fun ctx => negb (ctx =? u)) l) = occurrences x l.
Proof.
  intros Hx. unfold occurrences. induction l as [ | y l IH]; simpl; [ reflexivity | ].
  destruct (String.eqb_spec y u) as [E | N]; simpl.
  - destruct (string_dec y x); [ congruence | exact IH ].
  - destruct (string_dec y x); [ f_equal | ]; exact IH.
Qed.

Lemma unstable_is_not_stable : secp256k1Context <> unstableContext.
Proof. discriminate. Qed.

Lemma normalizeContext_unstable (items : list string) :
  occurrences unstableContext (normalizeContext items) = 0.
Proof.
  unfold normalizeContext.
  destruct (Array_includes _ secp256k1Context); cbn [negb].
  - apply occurrences_filter_out.
  - unfold occurrences. rewrite count_occ_app.
    fold (occurrences unstableContext
            (filter (fun ctx => negb (ctx =? unstableContext)) items)).
    rewrite occurrences_filter_out. reflexivity.
Qed.

Lemma normalizeContext_stable (items : list string) :
  occurrences secp256k1Context (normalizeContext items)
  = Nat.max 1 (occurrences secp256k1Context items).
Proof.
  unfold normalizeContext.
  pose proof (occurrences_filter_other _ _ items unstable_is_not_stable) as Hsame.
  destruct (Array_includes _ secp256k1Context) eqn:Hin; cbn [negb].
  - rewrite Hsame. apply Array_includes_In in Hin.
    apply (count_occ_In string_dec) in Hin. fold (occurrences secp256k1Context
      (filter (fun ctx => negb (ctx =? unstableContext)) items)) in Hin.
    rewrite Hsame in Hin. lia.
  - assert (Hout : ~ In secp256k1Context
                     (filter (fun ctx => negb (ctx =? unstableContext)) items)).
    { intros H. apply Array_includes_In in H. congruence. }
    apply (count_occ_not_In string_dec) in Hout.
    fold (occurrences secp256k1Context
            (filter (fun ctx => negb (ctx =? unstableContext)) items)) in Hout.
    unfold occurrences at 1. rewrite count_occ_app.
    fold (occurrences secp256k1Context
            (filter (fun ctx => negb (ctx =? unstableContext)) items)).
    rewrite Hsame in Hout |- *. rewrite Hout. reflexivity.
Qed.

(* ====================================================================== *)
(** ** The registry client *)

(** C9.  With a signer present, [createSchema] of the registry client given
    a schema id that is blank or longer than 256 characters, or a JSON text
    that is blank or that [JSON.parse] refuses, settles rejected with a
    [ValidationError], and has issued no event at all: the contract is never
    called. *)
Theorem createSchema_validates_before_any_call
        (w : World) (self : SchemaRegistry) (key : SigningKey)
        (schemaId json : string) :
  registry_wallet self = Some key ->
  isBlank schemaId = true \/ 256 < String.length schemaId
  \/ isBlank json = true \/ JSON_parse_ok w json = false ->
  exists msg,
    EthereumSchemaRegistry.createSchema w self schemaId json
    = ([], Rejected (new_ValidationError msg None)).
Proof.
  intros Hkey Hbad.
  unfold EthereumSchemaRegistry.createSchema,
    EthereumSchemaRegistry.validateSchemaId, EthereumSchemaRegistry.validateJson.
  rewrite Hkey, !blank_test.
  destruct (isBlank schemaId) eqn:Hid; [ eexists; reflexivity | ].
  destruct (256 <? String.length schemaId)%nat eqn:Hlen; [ eexists; reflexivity | ].
  apply Nat.ltb_ge in Hlen.
  destruct (isBlank json) eqn:Hjson; [ eexists; reflexivity | ].
  destruct (JSON_parse_ok w json) eqn:Hparse; [ | eexists; reflexivity ].
  destruct Hbad as [H | [H | [H | H]]]; solve [ discriminate | lia ].
Qed.

Lemma createSchema_validates_before_any_call_witness :
  registry_wallet Sample.registry = Some Sample.signer
  /\ (isBlank Sample.storedSchemaId = true \/ 256 < String.length Sample.storedSchemaId
      \/ isBlank "invalid-json" = true
      \/ JSON_parse_ok Sample.here
                       "invalid-json" = false)
  /\ exists msg,
      EthereumSchemaRegistry.createSchema
        Sample.here
        Sample.registry Sample.storedSchemaId "invalid-json"
      = ([], Rejected (new_ValidationError msg None)).
Proof.
  assert (Hbad : isBlank Sample.storedSchemaId = true
                 \/ 256 < String.length Sample.storedSchemaId
                 \/ isBlank "invalid-json" = true
                 \/ JSON_parse_ok Sample.here
                                  "invalid-json" = false)
    by (right; right; right; vm_compute; reflexivity).
  split; [ reflexivity | split; [ exact Hbad | ] ].
  exact (createSchema_validates_before_any_call
           Sample.here
           Sample.registry Sample.signer Sample.storedSchemaId "invalid-json"
           eq_refl Hbad).
Defined.

(* ====================================================================== *)
(** ** The DID resolver *)

(** C4, as the code has it.  The lookup of the ledger service (line 19) is
    outside the [try] block: if it throws, [resolve] settles rejected with
    the thrown value.  Once the service is obtained, [resolve] never settles
    rejected.  When the resolver library throws [e], or
    [JsonTransformer.fromJSON] throws [e] on the document, the result has a
    null document, the error [notFound] and a message that ends with the
    text of [e], the value caught.  A failure that the library reports as a
    value is not caught: the result carries the metadata of the library
    when the transformer accepts the document, and the text of the
    transformer's exception when it does not. *)
Theorem resolve_failure_policy
        (w : World) (agentContext : AgentContext) (did : string) :
  (forall e,
      dependencyManager_resolve agentContext = Rejected e ->
      resolve w agentContext did = ([], Rejected e))
  /\ (forall service,
         dependencyManager_resolve agentContext = Fulfilled service ->
         (exists result, resolve w agentContext did = ([], Fulfilled result))
         /\ (forall e,
                resolver service did = Rejected e ->
                resolve w agentContext did = ([], Fulfilled (notFound did e)))
         /\ (forall resolved e,
                resolver service did = Fulfilled resolved ->
                JsonTransformer_fromJSON
                  w (normalizeDocument (resolved_didDocument resolved)) = Rejected e ->
                resolve w agentContext did = ([], Fulfilled (notFound did e)))
         /\ (forall resolved instance,
                resolver service did = Fulfilled resolved ->
                JsonTransformer_fromJSON
                  w (normalizeDocument (resolved_didDocument resolved))
                = Fulfilled instance ->
                resolve w agentContext did
                = ([], Fulfilled
                         {| didDocument := instance;
                            didDocumentMetadata := resolved_didDocumentMetadata resolved;
                            didResolutionMetadata :=
                              resolved_didResolutionMetadata resolved |})))
  /\ (forall e,
         didDocument (notFound did e) = None
         /\ error (didResolutionMetadata (notFound did e)) = Some "notFound"
         /\ exists text,
             metadata_message (didResolutionMetadata (notFound did e)) = Some text
             /\ includes text (toString e) = true).
Proof.
  split; [ | split ].
  - intros e Hthrows. unfold resolve. rewrite Hthrows. reflexivity.
  - intros service Hservice.
    assert (Hrun : resolve w agentContext did
                   = try_catch
                       (resolved <- settle (resolver service did) ;;
                        instance <- settle (JsonTransformer_fromJSON w
                                              (normalizeDocument
                                                 (resolved_didDocument resolved))) ;;
                        ret {| didDocument := instance;
                               didDocumentMetadata := resolved_didDocumentMetadata resolved;
                               didResolutionMetadata :=
                                 resolved_didResolutionMetadata resolved |})
                       (fun error => ret (notFound did error))).
    { unfold resolve. rewrite Hservice, bind_settle_fulfilled. reflexivity. }
    rewrite Hrun. split; [ | split; [ | split ] ].
    + destruct (resolver service did) as [resolved | e1].
      * rewrite bind_settle_fulfilled.
        destruct (JsonTransformer_fromJSON w _) as [instance | e2];
          eexists; reflexivity.
      * eexists; reflexivity.
    + intros e H. rewrite H. reflexivity.
    + intros resolved e H1 H2. rewrite H1, bind_settle_fulfilled, H2. reflexivity.
    + intros resolved instance H1 H2.
      rewrite H1, bind_settle_fulfilled, H2. reflexivity.
  - intros e. split; [ reflexivity | split; [ reflexivity | ] ].
    eexists. split; [ reflexivity | ].
    apply includes_append_left, includes_append_left, includes_append_left,
      includes_refl.
Qed.

Lemma resolve_failure_policy_witness :
  (dependencyManager_resolve (Sample.agentContext Sample.unreachable)
   = Fulfilled (Sample.service Sample.unreachable)
   /\ resolver (Sample.service Sample.unreachable) Sample.theDid
      = Rejected (new_Error "could not detect network"))
  /\ resolve Sample.here (Sample.agentContext Sample.unreachable) Sample.theDid
     = ([], Fulfilled (notFound Sample.theDid (new_Error "could not detect network")))
  /\ metadata_message
       (didResolutionMetadata
          (notFound Sample.theDid (new_Error "could not detect network")))
     = Some ("resolver_error: Unable to resolve did '" ++ Sample.theDid
               ++ "': Error: could not detect network").
Proof.
  split; [ split; reflexivity | split; [ | reflexivity ] ].
  exact (proj1 (proj2 (proj1 (proj2 (resolve_failure_policy
                                       Sample.here
                                       (Sample.agentContext Sample.unreachable)
                                       Sample.theDid))
                             (Sample.service Sample.unreachable) eq_refl))
               (new_Error "could not detect network") eq_refl).
Defined.

(** C4, as the claim has it, fails twice.  With a dependency manager that
    does not know the ledger service, [resolve] settles rejected.  And when
    the library refuses the identifier with a value and the transformer
    throws on the null document, the message of the result carries the text
    of the transformer's exception, and nothing of the library's failure. *)
Lemma resolve_throws_and_hides_the_failure :
  outcome (resolve Sample.here Edge.bare Sample.theDid) = Rejected Edge.unregistered
  /\ resolver (Sample.service Edge.refusing) Sample.theDid = Fulfilled Edge.refusal
  /\ error (resolved_didResolutionMetadata Edge.refusal) = Some "invalidDid"
  /\ outcome (resolve Edge.strict (Sample.agentContext Edge.refusing) Sample.theDid)
     = Fulfilled (notFound Sample.theDid Edge.nullDocument)
  /\ metadata_message (didResolutionMetadata (notFound Sample.theDid Edge.nullDocument))
     = Some ("resolver_error: Unable to resolve did '" ++ Sample.theDid
               ++ "': TypeError: Cannot read properties of null (reading 'constructor')")
  /\ includes ("resolver_error: Unable to resolve did '" ++ Sample.theDid
                 ++ "': TypeError: Cannot read properties of null (reading 'constructor')")
              "invalidDid" = false
  /\ includes ("resolver_error: Unable to resolve did '" ++ Sample.theDid
                 ++ "': TypeError: Cannot read properties of null (reading 'constructor')")
              "Not a valid did:ethr" = false.
Proof. repeat split; vm_compute; reflexivity. Qed.

(** C5, as the code has it.  When the resolved document has an array for
    [@context], the document handed to [JsonTransformer.fromJSON], whose
    instance [resolve] returns, has a context list without the unstable URI
    and with the secp256k1 URI as often as the resolved list had it, and once
    if it had none: at least once, and exactly once when the resolved list
    had it at most once. *)
Theorem resolve_normalizes_context
        (w : World) (agentContext : AgentContext) (service : LedgerService)
        (did : string) (resolved : DIDResolutionResult) (doc : JsonDidDocument)
        (items : list string) (instance : option DidDocument) :
  dependencyManager_resolve agentContext = Fulfilled service ->
  resolver service did = Fulfilled resolved ->
  resolved_didDocument resolved = Some doc ->
  context doc = ContextArray items ->
  JsonTransformer_fromJSON w
    (Some {| context := ContextArray (normalizeContext items);
             document_id := document_id doc;
             document_members := document_members doc |})
  = Fulfilled instance ->
  outcome (resolve w agentContext did)
  = Fulfilled {| didDocument := instance;
                 didDocumentMetadata := resolved_didDocumentMetadata resolved;
                 didResolutionMetadata := resolved_didResolutionMetadata resolved |}
  /\ occurrences unstableContext (normalizeContext items) = 0
  /\ occurrences secp256k1Context (normalizeContext items)
     = Nat.max 1 (occurrences secp256k1Context items)
  /\ (occurrences secp256k1Context items <= 1 ->
      occurrences secp256k1Context (normalizeContext items) = 1).
Proof.
  intros Hservice Hresolved Hdoc Hctx Hinstance.
  split; [ | split; [ | split ] ].
  - unfold resolve, EthereumLedgerService.resolveDID.
    rewrite Hservice, bind_settle_fulfilled, Hresolved, bind_settle_fulfilled.
    unfold normalizeDocument. rewrite Hdoc, Hctx, Hinstance. reflexivity.
  - apply normalizeContext_unstable.
  - apply normalizeContext_stable.
  - rewrite normalizeContext_stable. lia.
Qed.

Lemma resolve_normalizes_context_witness :
  dependencyManager_resolve
    (Sample.agentContext
       (Sample.resolvedWith (ContextArray [Sample.w3cContext; unstableContext])))
  = Fulfilled (Sample.service
                 (Sample.resolvedWith (ContextArray [Sample.w3cContext; unstableContext])))
  /\ outcome (resolve Sample.here
                      (Sample.agentContext
                         (Sample.resolvedWith
                            (ContextArray [Sample.w3cContext; unstableContext])))
                      Sample.theDid)
     = Fulfilled
         {| didDocument :=
              Some (DidDocumentInstance
                      {| context := ContextArray [Sample.w3cContext; secp256k1Context];
                         document_id := Sample.theDid;
                         document_members := [] |});
            didDocumentMetadata := [];
            didResolutionMetadata :=
              {| error := None; metadata_message := None;
                 contentType := Some "application/did+ld+json" |} |}
  /\ occurrences secp256k1Context
                 (normalizeContext [Sample.w3cContext; unstableContext]) = 1.
Proof.
  pose proof (resolve_normalizes_context
                Sample.here
                (Sample.agentContext
                   (Sample.resolvedWith (ContextArray [Sample.w3cContext; unstableContext])))
                (Sample.service
                   (Sample.resolvedWith (ContextArray [Sample.w3cContext; unstableContext])))
                Sample.theDid
                {| resolved_didDocument :=
                     Some {| context := ContextArray [Sample.w3cContext; unstableContext];
                             document_id := Sample.theDid;
                             document_members := [] |};
                   resolved_didDocumentMetadata := [];
                   resolved_didResolutionMetadata :=
                     {| error := None; metadata_message := None;
                        contentType := Some "application/did+ld+json" |} |}
                {| context := ContextArray [Sample.w3cContext; unstableContext];
                   document_id := Sample.theDid;
                   document_members := [] |}
                [Sample.w3cContext; unstableContext]
                (Some (DidDocumentInstance
                         {| context := ContextArray [Sample.w3cContext; secp256k1Context];
                            document_id := Sample.theDid;
                            document_members := [] |}))
                eq_refl eq_refl eq_refl eq_refl eq_refl) as [H [_ [_ H1]]].
  split; [ reflexivity | split; [ exact H | apply H1; vm_compute; lia ] ].
Defined.

(** C5, as the claim has it, fails: a resolved context list that names the
    secp256k1 URI twice keeps both. *)
Lemma resolve_keeps_repeated_context :
  outcome (resolve Sample.here
                   (Sample.agentContext
                      (Sample.resolvedWith
                         (ContextArray [secp256k1Context; Sample.w3cContext;
                                        secp256k1Context])))
                   Sample.theDid)
  = Fulfilled
      {| didDocument :=
           Some (DidDocumentInstance
                   {| context := ContextArray [secp256k1Context; Sample.w3cContext;
                                               secp256k1Context];
                      document_id := Sample.theDid;
                      document_members := [] |});
         didDocumentMetadata := [];
         didResolutionMetadata :=
           {| error := None; metadata_message := None;
              contentType := Some "application/did+ld+json" |} |}
  /\ occurrences secp256k1Context
                 [secp256k1Context; Sample.w3cContext; secp256k1Context]
     <> 1.
Proof. split; [ reflexivity | vm_compute; discriminate ]. Qed.

(* ====================================================================== *)
(** ** The ledger service: retrieval *)

(** C10.  With both arguments not blank and the contract address or the RPC
    URL undefined or empty, the [try] block of [getSchemaByDidAndSchemaId]
    throws a [SchemaCreationError], which is not a [SchemaRetrievalError],
    and the call settles rejected with that very error. *)
Theorem retrieval_unconfigured_raises_creation_error
        (w : World) (self : LedgerService) (agentContext : AgentContext)
        (did schemaId : string) :
  isBlank did = false ->
  isBlank schemaId = false ->
  optTruthy (schemaManagerContractAddress self) = false
  \/ optTruthy (service_rpcUrl self) = false ->
  outcome (EthereumLedgerService.getSchemaByDidAndSchemaId_try
             w self agentContext did schemaId) = Rejected retrievalSettingsError
  /\ outcome (EthereumLedgerService.getSchemaByDidAndSchemaId
               w self agentContext did schemaId) = Rejected retrievalSettingsError
  /\ instanceof retrievalSettingsError SchemaCreationErrorC = true
  /\ instanceof retrievalSettingsError SchemaRetrievalErrorC = false.
Proof.
  intros Hdid Hid Hconfig.
  assert (Htry : EthereumLedgerService.getSchemaByDidAndSchemaId_try
                   w self agentContext did schemaId = throw retrievalSettingsError).
  { unfold EthereumLedgerService.getSchemaByDidAndSchemaId_try.
    destruct Hconfig as [H | H]; apply configured_truthy in H; rewrite H;
      [ reflexivity | ].
    destruct (EthereumLedgerService.configured (schemaManagerContractAddress self));
      reflexivity. }
  split; [ rewrite Htry; reflexivity | split; [ | split; reflexivity ] ].
  unfold EthereumLedgerService.getSchemaByDidAndSchemaId.
  rewrite Hdid, Hid, Htry. reflexivity.
Qed.

Lemma retrieval_unconfigured_raises_creation_error_witness :
  isBlank Sample.theDid = false
  /\ isBlank Sample.storedSchemaId = false
  /\ (optTruthy (schemaManagerContractAddress Sample.noNode) = false
      \/ optTruthy (service_rpcUrl Sample.noNode) = false)
  /\ outcome (EthereumLedgerService.getSchemaByDidAndSchemaId
               Sample.here Sample.noNode (Sample.agentContext Sample.unreachable)
               Sample.theDid Sample.storedSchemaId)
     = Rejected retrievalSettingsError.
Proof.
  assert (Hdid : isBlank Sample.theDid = false) by (vm_compute; reflexivity).
  assert (Hid : isBlank Sample.storedSchemaId = false) by (vm_compute; reflexivity).
  assert (Hconfig : optTruthy (schemaManagerContractAddress Sample.noNode) = false
                    \/ optTruthy (service_rpcUrl Sample.noNode) = false)
    by (right; reflexivity).
  split; [ exact Hdid | split; [ exact Hid | split; [ exact Hconfig | ] ] ].
  exact (proj1 (proj2 (retrieval_unconfigured_raises_creation_error
                         Sample.here Sample.noNode
                         (Sample.agentContext Sample.unreachable)
                         Sample.theDid Sample.storedSchemaId Hdid Hid Hconfig))).
Defined.

(* ====================================================================== *)
(** ** The ledger service: creation *)

(** Replace a computation whose outcome is known by its events and that
    outcome. *)
Ltac known H :=
  match type of H with
  | outcome ?m = _ => rewrite (run_eta m), H
  end.

(** Every rejection of the registry client's [createSchema] is an error
    object with a message that is not empty. *)
Lemma registry_rejection_has_message
      (w : World) (self : SchemaRegistry) (schemaId json : string) (e : Thrown) :
  outcome (EthereumSchemaRegistry.createSchema w self schemaId json) = Rejected e ->
  exists m, message e = Some m /\ truthy m = true /\ e <> ThrowUndefined.
Proof.
  unfold EthereumSchemaRegistry.createSchema, EthereumSchemaRegistry.validateSchemaId,
    EthereumSchemaRegistry.validateJson.
  assert (Hhandle : forall e0,
             outcome (@EthereumSchemaRegistry.handleContractError
                        ContractTransactionReceipt e0) = Rejected e ->
             exists m, message e = Some m /\ truthy m = true /\ e <> ThrowUndefined).
  { intros e0. unfold EthereumSchemaRegistry.handleContractError.
    destruct e0 as [cls n m c r rr ca oe | s | ]; cbn [reason code message];
      repeat match goal with
        | |- context [if ?b then _ else _] => destruct b
        end;
      cbn; intros [= <-]; eexists; (split; [ reflexivity | split; [ reflexivity | discriminate ] ]). }
  destruct (registry_wallet self);
    [ | cbn; intros [= <-]; eexists;
        (split; [ reflexivity | split; [ reflexivity | discriminate ] ]) ].
  rewrite !blank_test.
  destruct (isBlank schemaId);
    [ cbn; intros [= <-]; eexists;
      (split; [ reflexivity | split; [ reflexivity | discriminate ] ]) | ].
  destruct (256 <? String.length schemaId)%nat;
    [ cbn; intros [= <-]; eexists;
      (split; [ reflexivity | split; [ reflexivity | discriminate ] ]) | ].
  destruct (isBlank json);
    [ cbn; intros [= <-]; eexists;
      (split; [ reflexivity | split; [ reflexivity | discriminate ] ]) | ].
  destruct (JSON_parse_ok w json);
    [ | cbn; intros [= <-]; eexists;
        (split; [ reflexivity | split; [ reflexivity | discriminate ] ]) ].
  cbv beta iota. rewrite !bind_ret.
  destruct (contract_createSchema w (schemaRegistryContract self) schemaId json)
    as [receipt | e0]; [ cbn; discriminate | ].
  intros H. apply (Hhandle e0). rewrite <- H. cbn.
  destruct (EthereumSchemaRegistry.handleContractError e0). reflexivity.
Qed.

(** How [createSchema] settles once its checks have passed, in terms of
    its [try] block. *)
Lemma createSchema_after_checks
      (w : World) (self : LedgerService) (agentContext : AgentContext)
      (options : SchemaCreateOptions) (settings : EthereumLedgerService.Settings) :
  outcome (EthereumLedgerService.createSchema_checks self options) = Fulfilled settings ->
  EthereumLedgerService.createSchema w self agentContext options
  = (Log Info ("Creating schema on ledger: " ++ did options)
       :: trace (try_catch
                   (EthereumLedgerService.createSchema_try w agentContext options settings)
                   (EthereumLedgerService.createSchema_catch options)),
     outcome (try_catch
                (EthereumLedgerService.createSchema_try w agentContext options settings)
                (EthereumLedgerService.createSchema_catch options))).
Proof.
  intros Hchecks. unfold EthereumLedgerService.createSchema.
  assert (Hquiet : trace (EthereumLedgerService.createSchema_checks self options) = []).
  { unfold EthereumLedgerService.createSchema_checks.
    repeat match goal with
      | |- context [match ?x with _ => _ end] => destruct x
      end; reflexivity. }
  rewrite (run_eta (EthereumLedgerService.createSchema_checks self options)),
    Hchecks, Hquiet.
  cbn [bind emit app].
  destruct (try_catch _ _). reflexivity.
Qed.

(** How the [try] block settles once lines 90-106 have succeeded, in terms
    of the two settled calls. *)
Lemma createSchema_try_after_prepare
      (w : World) (agentContext : AgentContext) (options : SchemaCreateOptions)
      (settings : EthereumLedgerService.Settings) (p : EthereumLedgerService.Prepared) :
  outcome (EthereumLedgerService.createSchema_prepare w agentContext options settings)
  = Fulfilled p ->
  EthereumLedgerService.createSchema_try w agentContext options settings
  = ((trace (EthereumLedgerService.createSchema_prepare w agentContext options settings)
        ++ trace (EthereumLedgerService.createSchema_join w options settings p))%list,
     outcome (EthereumLedgerService.createSchema_join w options settings p)).
Proof.
  intros Hprepare. unfold EthereumLedgerService.createSchema_try.
  known Hprepare. cbn [bind trace fst].
  destruct (EthereumLedgerService.createSchema_join w options settings p). reflexivity.
Qed.

(** C1.  When the checks and lines 90-106 succeed, the on-chain write
    settles fulfilled with a receipt whose hash is not empty and the upload
    settles rejected, [createSchema] settles fulfilled with the DID, the
    fresh schema id and the hash of the receipt; the rejection of the upload
    shows only as a warning in the log. *)
Theorem createSchema_survives_upload_failure
        (w : World) (self : LedgerService) (agentContext : AgentContext)
        (options : SchemaCreateOptions) (settings : EthereumLedgerService.Settings)
        (p : EthereumLedgerService.Prepared) (result : ContractTransactionReceipt)
        (uploadError : Thrown) :
  outcome (EthereumLedgerService.createSchema_checks self options) = Fulfilled settings ->
  outcome (EthereumLedgerService.createSchema_prepare w agentContext options settings)
  = Fulfilled p ->
  outcome (EthereumLedgerService.blockchainWrite w p) = Fulfilled result ->
  truthy (hash result) = true ->
  outcome (EthereumLedgerService.fileUpload w options settings p) = Rejected uploadError ->
  outcome (EthereumLedgerService.createSchema w self agentContext options)
  = Fulfilled {| result_did := did options;
                 schemaId := EthereumLedgerService.fresh_schemaId p;
                 schemaTxnHash := Some (hash result) |}
  /\ In (Log Warn ("File server upload failed for schema "
                     ++ EthereumLedgerService.fresh_schemaId p ++ ": "
                     ++ optOrElse (message uploadError) "Unknown error"))
        (trace (EthereumLedgerService.createSchema w self agentContext options)).
Proof.
  intros Hchecks Hprepare Hwrite Hhash Hupload.
  rewrite (createSchema_after_checks w self agentContext options settings Hchecks).
  rewrite (createSchema_try_after_prepare w agentContext options settings p Hprepare).
  assert (Hjoin : EthereumLedgerService.createSchema_join w options settings p
                  = ((trace (EthereumLedgerService.blockchainWrite w p)
                        ++ trace (EthereumLedgerService.fileUpload w options settings p)
                        ++ [Log Warn ("File server upload failed for schema "
                                        ++ EthereumLedgerService.fresh_schemaId p ++ ": "
                                        ++ optOrElse (message uploadError) "Unknown error");
                            Log Info ("Successfully created schema on ledger for DID: "
                                        ++ did options)])%list,
                     Fulfilled {| result_did := did options;
                                  schemaId := EthereumLedgerService.fresh_schemaId p;
                                  schemaTxnHash := Some (hash result) |})).
  { unfold EthereumLedgerService.createSchema_join, allSettled1.
    unfold outcome in Hwrite, Hupload. rewrite Hwrite, Hupload.
    cbn [bind emit ret app fst snd trace]. rewrite Hhash.
    cbn [bind emit ret negb app fst snd trace]. reflexivity. }
  rewrite Hjoin. cbn [outcome trace fst snd try_catch]. split; [ reflexivity | ].
  right. apply in_or_app. right. apply in_or_app. right. apply in_or_app. right.
  left. reflexivity.
Qed.

Lemma createSchema_survives_upload_failure_witness :
  outcome (EthereumLedgerService.createSchema_checks
             (Sample.service Sample.unreachable) Sample.options)
  = Fulfilled Sample.settings
  /\ outcome (EthereumLedgerService.createSchema_prepare
               Sample.serverDown (Sample.agentContext Sample.unreachable)
               Sample.options Sample.settings)
     = Fulfilled Sample.prepared
  /\ outcome (EthereumLedgerService.blockchainWrite Sample.serverDown Sample.prepared)
     = Fulfilled Sample.receipt
  /\ truthy (hash Sample.receipt) = true
  /\ outcome (EthereumLedgerService.fileUpload Sample.serverDown Sample.options
                                              Sample.settings Sample.prepared)
     = Rejected Sample.uploadFailure
  /\ outcome (EthereumLedgerService.createSchema
               Sample.serverDown (Sample.service Sample.unreachable)
               (Sample.agentContext Sample.unreachable) Sample.options)
     = Fulfilled {| result_did := Sample.theDid;
                    schemaId := "3f2504e0-4f89-41d3-9a0c-0305e82c3301";
                    schemaTxnHash := Some (hash Sample.receipt) |}.
Proof.
  assert (H1 : outcome (EthereumLedgerService.createSchema_checks
                          (Sample.service Sample.unreachable) Sample.options)
               = Fulfilled Sample.settings) by (vm_compute; reflexivity).
  assert (H2 : outcome (EthereumLedgerService.createSchema_prepare
                          Sample.serverDown (Sample.agentContext Sample.unreachable)
                          Sample.options Sample.settings)
               = Fulfilled Sample.prepared) by (vm_compute; reflexivity).
  assert (H3 : outcome (EthereumLedgerService.blockchainWrite
                          Sample.serverDown Sample.prepared)
               = Fulfilled Sample.receipt) by (vm_compute; reflexivity).
  assert (H4 : truthy (hash Sample.receipt) = true) by reflexivity.
  assert (H5 : outcome (EthereumLedgerService.fileUpload
                          Sample.serverDown Sample.options Sample.settings
                          Sample.prepared)
               = Rejected Sample.uploadFailure) by (vm_compute; reflexivity).
  repeat (split; [ assumption | ]).
  exact (proj1 (createSchema_survives_upload_failure
                  Sample.serverDown (Sample.service Sample.unreachable)
                  (Sample.agentContext Sample.unreachable) Sample.options
                  Sample.settings Sample.prepared Sample.receipt Sample.uploadFailure
                  H1 H2 H3 H4 H5)).
Defined.

(** C6.  When the checks and lines 90-106 succeed and the on-chain write
    settles rejected, the rejection has a message [m], and [createSchema]
    settles rejected with a [SchemaCreationError] whose cause is the
    rejection and whose message gives the reason: "Insufficient funds to pay
    for gas fees" when [m] in lower case contains "insufficient funds" or
    "insufficient balance", "Blockchain transaction failed" otherwise. *)
Theorem createSchema_fails_on_write_rejection
        (w : World) (self : LedgerService) (agentContext : AgentContext)
        (options : SchemaCreateOptions) (settings : EthereumLedgerService.Settings)
        (p : EthereumLedgerService.Prepared) (rejection : Thrown) :
  outcome (EthereumLedgerService.createSchema_checks self options) = Fulfilled settings ->
  outcome (EthereumLedgerService.createSchema_prepare w agentContext options settings)
  = Fulfilled p ->
  outcome (EthereumLedgerService.blockchainWrite w p) = Rejected rejection ->
  exists m raised,
    message rejection = Some m
    /\ outcome (EthereumLedgerService.createSchema w self agentContext options)
       = Rejected raised
    /\ raised
       = new_SchemaCreationError
           (if includes (toLowerCase m) "insufficient funds"
               || includes (toLowerCase m) "insufficient balance"
            then "Insufficient funds to pay for gas fees"
            else "Blockchain transaction failed")
           (Some rejection)
    /\ instanceof raised SchemaCreationErrorC = true
    /\ cause raised = Some rejection
    /\ message raised
       = Some (if includes (toLowerCase m) "insufficient funds"
                  || includes (toLowerCase m) "insufficient balance"
               then "Schema creation failed. Reason: Insufficient funds to pay for gas fees"
               else "Schema creation failed. Reason: Blockchain transaction failed").
Proof.
  intros Hchecks Hprepare Hwrite.
  destruct (registry_rejection_has_message w _ _ _ rejection Hwrite)
    as [m [Hm [Htruthy Hdefined]]].
  exists m.
  exists (new_SchemaCreationError
            (if includes (toLowerCase m) "insufficient funds"
                || includes (toLowerCase m) "insufficient balance"
             then "Insufficient funds to pay for gas fees"
             else "Blockchain transaction failed")
            (Some rejection)).
  split; [ exact Hm | ].
  split; [ | split; [ reflexivity | ] ].
  - rewrite (createSchema_after_checks w self agentContext options settings Hchecks).
    rewrite (createSchema_try_after_prepare w agentContext options settings p Hprepare).
    assert (Hmsg : EthereumLedgerService.errMsg rejection = toLowerCase m).
    { unfold EthereumLedgerService.errMsg. rewrite Hm, Htruthy. reflexivity. }
    assert (Hcause : optional rejection = Some rejection).
    { destruct rejection; [ reflexivity | reflexivity | contradiction ]. }
    assert (Hjoin : outcome (EthereumLedgerService.createSchema_join w options settings p)
                    = Rejected
                        (new_SchemaCreationError
                           (if includes (toLowerCase m) "insufficient funds"
                               || includes (toLowerCase m) "insufficient balance"
                            then "Insufficient funds to pay for gas fees"
                            else "Blockchain transaction failed")
                           (Some rejection))).
    { unfold EthereumLedgerService.createSchema_join, allSettled1.
      unfold outcome in Hwrite. rewrite Hwrite.
      cbn [bind fst snd app]. rewrite Hmsg, Hcause.
      destruct (includes (toLowerCase m) "insufficient funds"
                || includes (toLowerCase m) "insufficient balance"); reflexivity. }
    cbn [outcome snd]. rewrite outcome_try_catch. cbn [outcome snd].
    fold (outcome (EthereumLedgerService.createSchema_join w options settings p)).
    rewrite Hjoin. unfold EthereumLedgerService.createSchema_catch.
    destruct (includes (toLowerCase m) "insufficient funds"
              || includes (toLowerCase m) "insufficient balance"); reflexivity.
  - destruct (includes (toLowerCase m) "insufficient funds"
              || includes (toLowerCase m) "insufficient balance");
      repeat split; reflexivity.
Qed.

Lemma createSchema_fails_on_write_rejection_witness :
  (outcome (EthereumLedgerService.createSchema_checks
              (Sample.service Sample.unreachable) Sample.options)
   = Fulfilled Sample.settings
   /\ outcome (EthereumLedgerService.createSchema_prepare
                Sample.broke (Sample.agentContext Sample.unreachable)
                Sample.options Sample.settings)
      = Fulfilled Sample.prepared
   /\ outcome (EthereumLedgerService.blockchainWrite Sample.broke Sample.prepared)
      = Rejected Sample.fundsRejection)
  /\ exists m raised,
      message Sample.fundsRejection = Some m
      /\ outcome (EthereumLedgerService.createSchema
                   Sample.broke (Sample.service Sample.unreachable)
                   (Sample.agentContext Sample.unreachable) Sample.options)
         = Rejected raised
      /\ raised
         = new_SchemaCreationError
             (if includes (toLowerCase m) "insufficient funds"
                 || includes (toLowerCase m) "insufficient balance"
              then "Insufficient funds to pay for gas fees"
              else "Blockchain transaction failed")
             (Some Sample.fundsRejection)
      /\ instanceof raised SchemaCreationErrorC = true
      /\ cause raised = Some Sample.fundsRejection
      /\ message raised
         = Some (if includes (toLowerCase m) "insufficient funds"
                    || includes (toLowerCase m) "insufficient balance"
                 then "Schema creation failed. Reason: Insufficient funds to pay for gas fees"
                 else "Schema creation failed. Reason: Blockchain transaction failed").
Proof.
  assert (H1 : outcome (EthereumLedgerService.createSchema_checks
                          (Sample.service Sample.unreachable) Sample.options)
               = Fulfilled Sample.settings) by (vm_compute; reflexivity).
  assert (H2 : outcome (EthereumLedgerService.createSchema_prepare
                          Sample.broke (Sample.agentContext Sample.unreachable)
                          Sample.options Sample.settings)
               = Fulfilled Sample.prepared) by (vm_compute; reflexivity).
  assert (H3 : outcome (EthereumLedgerService.blockchainWrite
                          Sample.broke Sample.prepared)
               = Rejected Sample.fundsRejection) by (vm_compute; reflexivity).
  split; [ repeat split; assumption | ].
  exact (createSchema_fails_on_write_rejection
           Sample.broke (Sample.service Sample.unreachable)
           (Sample.agentContext Sample.unreachable) Sample.options
           Sample.settings Sample.prepared Sample.fundsRejection H1 H2 H3).
Defined.

(** The two branches, run: the funds error for a refusal for lack of funds,
    the generic error for another refusal. *)
Example createSchema_funds_error :
  outcome (EthereumLedgerService.createSchema
             Sample.broke (Sample.service Sample.unreachable)
             (Sample.agentContext Sample.unreachable) Sample.options)
  = Rejected (new_SchemaCreationError "Insufficient funds to pay for gas fees"
                                      (Some Sample.fundsRejection)).
Proof. vm_compute. reflexivity. Qed.

Example createSchema_generic_error :
  outcome (EthereumLedgerService.createSchema
             Sample.stale (Sample.service Sample.unreachable)
             (Sample.agentContext Sample.unreachable) Sample.options)
  = Rejected (new_SchemaCreationError "Blockchain transaction failed"
                                      (Some Sample.nonceRejection)).
Proof. vm_compute. reflexivity. Qed.

(* ====================================================================== *)
(** ** The ledger service: what crosses its boundary *)

Lemma checks_imply_did (self : LedgerService) (options : SchemaCreateOptions)
      (settings : EthereumLedgerService.Settings) :
  outcome (EthereumLedgerService.createSchema_checks self options) = Fulfilled settings ->
  isBlank (did options) = false.
Proof.
  unfold EthereumLedgerService.createSchema_checks.
  repeat match goal with
    | |- context [match EthereumLedgerService.configured ?x with _ => _ end] =>
        destruct (EthereumLedgerService.configured x)
    end; try (cbn; discriminate).
  destruct (isBlank (did options)); [ cbn; discriminate | reflexivity ].
Qed.




(* ====================================================================== *)
(** ** The ledger service: retrieval of a stored schema *)

(** A registry client cannot be built without a signing key. *)
Lemma registry_needs_signing_key (w : World) (address node : string) :
  exists msg,
    EthereumSchemaRegistry.new w
      {| contractAddress := address; rpcUrl := node; signingKey := None |}
    = throw (new_ValidationError msg None).
Proof.
  unfold EthereumSchemaRegistry.new, EthereumSchemaRegistry.validateConfig.
  cbn [contractAddress rpcUrl signingKey].
  destruct (negb (truthy address) || negb (isAddress w address));
    [ eexists; reflexivity | ].
  destruct (negb (truthy node)); eexists; reflexivity.
Qed.

(** So [getSchemaByDidAndSchemaId], which builds its client without one
    (line 174), never settles fulfilled, whatever the chain holds. *)
Lemma retrieval_never_fulfilled
      (w : World) (self : LedgerService) (agentContext : AgentContext)
      (did schemaId schema : string) :
  outcome (EthereumLedgerService.getSchemaByDidAndSchemaId
             w self agentContext did schemaId) <> Fulfilled schema.
Proof.
  unfold EthereumLedgerService.getSchemaByDidAndSchemaId.
  destruct (isBlank did); [ cbn; discriminate | ].
  destruct (isBlank schemaId); [ cbn; discriminate | ].
  rewrite outcome_bind. cbn [outcome emit snd]. rewrite outcome_try_catch.
  assert (Htry : exists e,
             EthereumLedgerService.getSchemaByDidAndSchemaId_try
               w self agentContext did schemaId = throw e).
  { unfold EthereumLedgerService.getSchemaByDidAndSchemaId_try.
    destruct (EthereumLedgerService.configured (schemaManagerContractAddress self))
      as [a | ]; [ | eexists; reflexivity ].
    destruct (EthereumLedgerService.configured (service_rpcUrl self))
      as [r | ]; [ | eexists; reflexivity ].
    destruct (registry_needs_signing_key w a r) as [msg Hnew].
    rewrite Hnew. eexists; reflexivity. }
  destruct Htry as [e Htry]. rewrite Htry. cbn [outcome throw snd].
  unfold EthereumLedgerService.getSchemaByDidAndSchemaId_catch.
  destruct (instanceof e EthereumLedgerErrorC); cbn; discriminate.
Qed.

(** With both settings configured the rejection is a [SchemaRetrievalError]
    that wraps the [ValidationError] of the constructor. *)
Lemma retrieval_configured_is_rejected
      (w : World) (self : LedgerService) (agentContext : AgentContext)
      (did schemaId address node : string) :
  isBlank did = false ->
  isBlank schemaId = false ->
  EthereumLedgerService.configured (schemaManagerContractAddress self) = Some address ->
  EthereumLedgerService.configured (service_rpcUrl self) = Some node ->
  exists msg,
    outcome (EthereumLedgerService.getSchemaByDidAndSchemaId
               w self agentContext did schemaId)
    = Rejected (new_SchemaRetrievalError schemaId msg
                  (Some (new_ValidationError msg None))).
Proof.
  intros Hdid Hid Haddress Hnode.
  destruct (registry_needs_signing_key w address node) as [msg Hnew].
  exists msg. unfold EthereumLedgerService.getSchemaByDidAndSchemaId.
  rewrite Hdid, Hid, outcome_bind. cbn [outcome emit snd].
  unfold EthereumLedgerService.getSchemaByDidAndSchemaId_try.
  rewrite Haddress, Hnode, Hnew. reflexivity.
Qed.

(** C2, run where the claim promises the stored schema.  The arguments are
    not blank, both settings are configured, the DID record gives the
    address [Sample.ownerAddress], and a registry client built with a
    signing key reads [Sample.storedSchema] there; yet the service settles
    rejected, with the [ValidationError] of the constructor as cause. *)
Theorem retrieval_of_stored_schema_is_rejected :
  isBlank Sample.theDid = false
  /\ isBlank Sample.storedSchemaId = false
  /\ EthereumLedgerService.configured
       (schemaManagerContractAddress (Sample.service Sample.unreachable))
     = Some Sample.registryAddress
  /\ EthereumLedgerService.configured (service_rpcUrl (Sample.service Sample.unreachable))
     = Some Sample.nodeUrl
  /\ outcome (EthereumLedgerService.getPublicKeyFromDid
               Sample.here (Sample.agentContext Sample.unreachable) Sample.theDid)
     = Fulfilled
         {| EthereumLedgerService.publicKeyBase58 :=
              "z022527341df022c9b898999cf6035ed3addca5d30e703028deeb4408f890f3baca";
            EthereumLedgerService.keyResult_blockchainAccountId :=
              "eip155:11155111:" ++ Sample.ownerAddress |}
  /\ parseAddress Sample.here ("eip155:11155111:" ++ Sample.ownerAddress)
     = Fulfilled Sample.ownerAddress
  /\ outcome (EthereumSchemaRegistry.getSchema
               Sample.here Sample.registry Sample.ownerAddress Sample.storedSchemaId)
     = Fulfilled (Some Sample.storedSchema)
  /\ outcome (EthereumLedgerService.getSchemaByDidAndSchemaId
               Sample.here (Sample.service Sample.unreachable)
               (Sample.agentContext Sample.unreachable)
               Sample.theDid Sample.storedSchemaId)
     = Rejected (new_SchemaRetrievalError
                   Sample.storedSchemaId "Signing Key is required"
                   (Some (new_ValidationError "Signing Key is required" None))).
Proof. repeat split; vm_compute; reflexivity. Qed.

(* ====================================================================== *)
(** ** The resource builders *)

(** The schema body has no part in the payload: [String(schema)] is the
    same text for every plain object. *)
Lemma buildSchemaResource_ignores_schema
      (w : World) (did schemaId name address : string) (schema1 schema2 : JsObject) :
  schemaHelper.buildSchemaResource w did schemaId name schema1 address
  = schemaHelper.buildSchemaResource w did schemaId name schema2 address.
Proof. reflexivity. Qed.

(** The two parts of C3 that hold: the checksum is the digest of
    [String(schema)], and an empty digest makes the call fail. *)
Lemma buildSchemaResource_checksum
      (w : World) (did schemaId name address : string) (schema : JsObject) :
  (truthy (keccak256_hex w (String_of_object schema)) = true ->
   exists payload,
     schemaHelper.buildSchemaResource w did schemaId name schema address
     = ret payload
     /\ checksum payload = keccak256_hex w (String_of_object schema))
  /\ (truthy (keccak256_hex w (String_of_object schema)) = false ->
      schemaHelper.buildSchemaResource w did schemaId name schema address
      = throw (new_Error "Error while calculating checksum!")).
Proof.
  unfold schemaHelper.buildSchemaResource.
  split; intros H; rewrite H; cbn [negb]; [ eexists; split; reflexivity | reflexivity ].
Qed.

(** C3, run on two schema bodies of different content, with a digest that
    tells all texts apart: the two payloads carry the same checksum, the
    digest of the text [[object Object]]. *)
Theorem checksum_is_blind_to_schema_content :
  schema Sample.options <> Sample.otherSchema
  /\ Sample.stringify (JObj (schema Sample.options))
     <> Sample.stringify (JObj Sample.otherSchema)
  /\ (exists payload1 payload2,
         outcome (schemaHelper.buildSchemaResource
                    Sample.here Sample.theDid Sample.storedSchemaId "TestCollegeSchema"
                    (schema Sample.options) Sample.ownerAddress)
         = Fulfilled payload1
         /\ outcome (schemaHelper.buildSchemaResource
                       Sample.here Sample.theDid Sample.storedSchemaId "TestCollegeSchema"
                       Sample.otherSchema Sample.ownerAddress)
            = Fulfilled payload2
         /\ checksum payload1 = checksum payload2
         /\ checksum payload1 = Sample.hexOfText "[object Object]").
Proof.
  split; [ discriminate | split; [ vm_compute; discriminate | ] ].
  do 2 eexists. repeat split; vm_compute; reflexivity.
Qed.




(* ====================================================================== *)
(** * Further properties *)

Lemma trace_bind {A B} (m : M A) (k : A -> M B) :
  trace (bind m k)
  = match outcome m with
    | Fulfilled a => (trace m ++ trace (k a))%list
    | Rejected _ => trace m
    end.
Proof.
  destruct m as [t [a | e]]; simpl; [ destruct (k a) | ]; reflexivity.
Qed.

Lemma trace_try_catch {A} (m : M A) (h : Thrown -> M A) :
  trace (try_catch m h)
  = match outcome m with
    | Fulfilled _ => trace m
    | Rejected e => (trace m ++ trace (h e))%list
    end.
Proof.
  destruct m as [t [a | e]]; simpl; [ | destruct (h e) ]; reflexivity.
Qed.

(** The validators of the registry client, each as one test. *)
Lemma validateSchemaId_cases (schemaId : string) :
  EthereumSchemaRegistry.validateSchemaId schemaId
  = if isBlank schemaId
    then throw (new_ValidationError "Schema ID cannot be empty" None)
    else if (256 <? String.length schemaId)%nat
    then throw (new_ValidationError "Schema ID too long (max 256 characters)" None)
    else ret tt.
Proof. unfold EthereumSchemaRegistry.validateSchemaId. rewrite blank_test. reflexivity. Qed.

Lemma validateJson_cases (w : World) (json : string) :
  EthereumSchemaRegistry.validateJson w json
  = if isBlank json
    then throw (new_ValidationError "JSON cannot be empty" None)
    else if JSON_parse_ok w json then ret tt
    else throw (new_ValidationError "Invalid JSON format" None).
Proof. unfold EthereumSchemaRegistry.validateJson. rewrite blank_test. reflexivity. Qed.

(** [handleContractError] never returns, and issues nothing. *)
Lemma handleContractError_throws {A} (e : Thrown) :
  exists raised, @EthereumSchemaRegistry.handleContractError A e = throw raised.
Proof.
  unfold EthereumSchemaRegistry.handleContractError.
  destruct e; repeat match goal with
                | |- context [if ?b then _ else _] => destruct b
                end; eexists; reflexivity.
Qed.

Lemma handleContractError_outcome {A B} (e : Thrown) :
  outcome (@EthereumSchemaRegistry.handleContractError A e)
  = Rejected match outcome (@EthereumSchemaRegistry.handleContractError B e) with
             | Rejected raised => raised
             | Fulfilled _ => ThrowUndefined
             end.
Proof.
  unfold EthereumSchemaRegistry.handleContractError.
  destruct e; repeat match goal with
                | |- context [if ?b then _ else _] => destruct b
                end; reflexivity.
Qed.

(* ====================================================================== *)
(** ** The registry client: construction *)

(** X1.  A registry client that the constructor returns has a signer: the
    configuration named a signing key, which is the client's wallet, an
    address that [isAddress] accepts and an RPC URL that is not empty. *)
Theorem constructed_registry_has_signer
        (w : World) (config : SchemaRegistryConfig) (self : SchemaRegistry) :
  outcome (EthereumSchemaRegistry.new w config) = Fulfilled self ->
  (exists key, signingKey config = Some key /\ registry_wallet self = Some key)
  /\ isAddress w (contractAddress config) = true
  /\ truthy (rpcUrl config) = true
  /\ provider self = rpcUrl config
  /\ schemaRegistryContract self = config.
Proof.
  unfold EthereumSchemaRegistry.new, EthereumSchemaRegistry.validateConfig.
  destruct (truthy (contractAddress config)); [ | cbn; discriminate ].
  destruct (isAddress w (contractAddress config)); [ | cbn; discriminate ].
  destruct (truthy (rpcUrl config)); [ | cbn; discriminate ].
  destruct (signingKey config) as [key | ] eqn:Hkey; [ | cbn; discriminate ].
  cbn [negb orb]. rewrite bind_ret.
  destruct (ethers_connect w config) as [e | ]; cbn; [ discriminate | ].
  intros [= <-]. cbn.
  split; [ exists key; split; reflexivity | repeat split ].
Qed.

Lemma constructed_registry_has_signer_witness :
  outcome (EthereumSchemaRegistry.new Sample.here Scenario.registryConfig)
  = Fulfilled Sample.registry
  /\ (exists key,
         signingKey Scenario.registryConfig = Some key
         /\ registry_wallet Sample.registry = Some key).
Proof.
  assert (H : outcome (EthereumSchemaRegistry.new Sample.here Scenario.registryConfig)
              = Fulfilled Sample.registry) by (vm_compute; reflexivity).
  split; [ exact H | ].
  exact (proj1 (constructed_registry_has_signer
                  Sample.here Scenario.registryConfig Sample.registry H)).
Defined.



(* ====================================================================== *)
(** ** The registry client: the mapping of contract failures *)

(** X3.  For an error object, [handleContractError] throws an error that
    keeps the object as its original error.  A revert reason that is not
    empty makes it a [ContractError] with that reason, whatever the code of
    the object; without one, the code [NETWORK_ERROR] makes it a
    [NetworkError], and anything else a [ContractError] without reason. *)
Theorem handleContractError_classifies
        (cls : ErrClass) (n m : string) (c r rr : option string)
        (ca oe : option Thrown) :
  exists raised,
    @EthereumSchemaRegistry.handleContractError unit (ThrowErr cls n m c r rr ca oe)
    = throw raised
    /\ originalError raised = Some (ThrowErr cls n m c r rr ca oe)
    /\ instanceof raised SchemaRegistryErrorC = true
    /\ (if optTruthy r
        then instanceof raised ContractErrorC = true /\ revertReason raised = r
        else if match c with Some k => k =? "NETWORK_ERROR" | None => false end
        then instanceof raised NetworkErrorC = true
             /\ message raised = Some ("Network error: " ++ m)
        else instanceof raised ContractErrorC = true
             /\ revertReason raised = None
             /\ message raised = Some ("Transaction failed: " ++ m)).
Proof.
  unfold EthereumSchemaRegistry.handleContractError. cbn [reason code message interp].
  destruct (optTruthy r) eqn:Hr.
  - destruct r as [r | ]; [ | discriminate ]. cbn [interp].
    destruct (r =? "SCHEMA_EXISTS"); [ | destruct (r =? "NOT_OWNER") ];
      eexists; repeat split; reflexivity.
  - destruct (match c with Some k => k =? "NETWORK_ERROR" | None => false end);
      eexists; repeat split; reflexivity.
Qed.

(** The two revert reasons the client names. *)
Lemma handleContractError_named_reasons
      (cls : ErrClass) (n m : string) (c rr : option string) (ca oe : option Thrown) :
  @EthereumSchemaRegistry.handleContractError unit
     (ThrowErr cls n m c (Some "SCHEMA_EXISTS") rr ca oe)
  = throw (new_ContractError "Schema already exists for this address and schema ID"
                             (Some "SCHEMA_EXISTS")
                             (Some (ThrowErr cls n m c (Some "SCHEMA_EXISTS") rr ca oe)))
  /\ @EthereumSchemaRegistry.handleContractError unit
       (ThrowErr cls n m c (Some "NOT_OWNER") rr ca oe)
     = throw (new_ContractError "Only contract owner can perform this action"
                                (Some "NOT_OWNER")
                                (Some (ThrowErr cls n m c (Some "NOT_OWNER") rr ca oe))).
Proof. split; reflexivity. Qed.

(* ====================================================================== *)
(** ** The registry client: its operations *)

(** One contract call under the [try] of an operation: the call is issued
    once, its value is returned as it is, its failure is mapped. *)
Lemma contract_call_run {A} (ev : Event) (answer : Outcome A) :
  try_catch (emit ev ;;; (value <- settle answer ;; ret value))
            EthereumSchemaRegistry.handleContractError
  = ([ev], match answer with
           | Fulfilled value => Fulfilled value
           | Rejected e => outcome (@EthereumSchemaRegistry.handleContractError A e)
           end).
Proof.
  destruct answer as [value | e]; [ reflexivity | ].
  destruct (@handleContractError_throws A e) as [raised H].
  cbn. rewrite H. reflexivity.
Qed.

Lemma handled_error_is_typed {A} (e raised : Thrown) :
  outcome (@EthereumSchemaRegistry.handleContractError A e) = Rejected raised ->
  instanceof raised SchemaRegistryErrorC = true \/ e = ThrowUndefined.
Proof.
  unfold EthereumSchemaRegistry.handleContractError.
  destruct e; [ | | right; reflexivity ];
    repeat match goal with
      | |- context [if ?b then _ else _] => destruct b
      end; cbn; intros [= <-]; left; reflexivity.
Qed.

(** X4.  With a signer, a schema id that is not blank and has at most 256
    characters, and a JSON text that is not blank and parses,
    [createSchema] calls the contract exactly once, with the two arguments
    as given, and returns the receipt of the contract unchanged; a failure
    of the contract is mapped by [handleContractError]. *)
Theorem createSchema_calls_contract_once
        (w : World) (self : SchemaRegistry) (key : SigningKey) (schemaId json : string) :
  registry_wallet self = Some key ->
  isBlank schemaId = false ->
  String.length schemaId <= 256 ->
  isBlank json = false ->
  JSON_parse_ok w json = true ->
  trace (EthereumSchemaRegistry.createSchema w self schemaId json)
  = [ContractCall "createSchema" [schemaId; json]]
  /\ outcome (EthereumSchemaRegistry.createSchema w self schemaId json)
     = match contract_createSchema w (schemaRegistryContract self) schemaId json with
       | Fulfilled receipt => Fulfilled receipt
       | Rejected e =>
           outcome (@EthereumSchemaRegistry.handleContractError
                      ContractTransactionReceipt e)
       end.
Proof.
  intros Hkey Hid Hlen Hjson Hparse.
  unfold EthereumSchemaRegistry.createSchema.
  rewrite Hkey, validateSchemaId_cases, validateJson_cases, Hid, Hjson, Hparse.
  apply Nat.ltb_ge in Hlen. rewrite Hlen, !bind_ret, contract_call_run.
  split; reflexivity.
Qed.

Lemma createSchema_calls_contract_once_witness :
  (registry_wallet Sample.registry = Some Sample.signer
   /\ isBlank Sample.storedSchemaId = false
   /\ String.length Sample.storedSchemaId <= 256
   /\ isBlank Sample.storedSchema = false
   /\ JSON_parse_ok Sample.here Sample.storedSchema = true)
  /\ trace (EthereumSchemaRegistry.createSchema
             Sample.here Sample.registry Sample.storedSchemaId Sample.storedSchema)
     = [ContractCall "createSchema" [Sample.storedSchemaId; Sample.storedSchema]].
Proof.
  assert (H2 : isBlank Sample.storedSchemaId = false) by (vm_compute; reflexivity).
  assert (H3 : String.length Sample.storedSchemaId <= 256) by (vm_compute; lia).
  assert (H4 : isBlank Sample.storedSchema = false) by (vm_compute; reflexivity).
  assert (H5 : JSON_parse_ok Sample.here Sample.storedSchema = true)
    by (vm_compute; reflexivity).
  split; [ repeat split; assumption | ].
  exact (proj1 (createSchema_calls_contract_once
                  Sample.here Sample.registry Sample.signer
                  Sample.storedSchemaId Sample.storedSchema eq_refl H2 H3 H4 H5)).
Defined.

(** X5.  Creating a schema under an id the contract refuses with the revert
    reason [SCHEMA_EXISTS] settles rejected with the [ContractError] for an
    existing schema, which carries that reason and the contract's failure. *)
Theorem createSchema_existing_id
        (w : World) (self : SchemaRegistry) (key : SigningKey) (schemaId json : string)
        (e : Thrown) :
  registry_wallet self = Some key ->
  isBlank schemaId = false ->
  String.length schemaId <= 256 ->
  isBlank json = false ->
  JSON_parse_ok w json = true ->
  contract_createSchema w (schemaRegistryContract self) schemaId json = Rejected e ->
  reason e = Some "SCHEMA_EXISTS" ->
  outcome (EthereumSchemaRegistry.createSchema w self schemaId json)
  = Rejected (new_ContractError "Schema already exists for this address and schema ID"
                                (Some "SCHEMA_EXISTS") (Some e)).
Proof.
  intros Hkey Hid Hlen Hjson Hparse Hrefused Hreason.
  unfold EthereumSchemaRegistry.createSchema.
  apply Nat.ltb_ge in Hlen.
  rewrite Hkey, validateSchemaId_cases, validateJson_cases, Hid, Hlen, Hjson, Hparse,
    !bind_ret, contract_call_run, Hrefused.
  destruct e as [cls n m c r rr ca oe | s | ]; try discriminate.
  cbn in Hreason. subst r. reflexivity.
Qed.

Lemma createSchema_existing_id_witness :
  (registry_wallet Sample.registry = Some Sample.signer
   /\ isBlank Sample.storedSchemaId = false
   /\ String.length Sample.storedSchemaId <= 256
   /\ isBlank Sample.storedSchema = false
   /\ JSON_parse_ok Scenario.taken Sample.storedSchema = true
   /\ contract_createSchema Scenario.taken (schemaRegistryContract Sample.registry)
                            Sample.storedSchemaId Sample.storedSchema
      = Rejected Scenario.schemaExists
   /\ reason Scenario.schemaExists = Some "SCHEMA_EXISTS")
  /\ outcome (EthereumSchemaRegistry.createSchema
               Scenario.taken Sample.registry Sample.storedSchemaId Sample.storedSchema)
     = Rejected (new_ContractError "Schema already exists for this address and schema ID"
                                   (Some "SCHEMA_EXISTS") (Some Scenario.schemaExists)).
Proof.
  assert (H2 : isBlank Sample.storedSchemaId = false) by (vm_compute; reflexivity).
  assert (H3 : String.length Sample.storedSchemaId <= 256) by (vm_compute; lia).
  assert (H4 : isBlank Sample.storedSchema = false) by (vm_compute; reflexivity).
  assert (H5 : JSON_parse_ok Scenario.taken Sample.storedSchema = true)
    by (vm_compute; reflexivity).
  split; [ repeat split; assumption | ].
  exact (createSchema_existing_id
           Scenario.taken Sample.registry Sample.signer
           Sample.storedSchemaId Sample.storedSchema Scenario.schemaExists
           eq_refl H2 H3 H4 H5 eq_refl eq_refl).
Defined.

(** X6.  Whatever its arguments, [createSchema] issues at most one contract
    call, and a rejection is a [SchemaRegistryError] unless the contract
    threw [undefined]. *)
Theorem createSchema_rejections_are_typed
        (w : World) (self : SchemaRegistry) (schemaId json : string) (raised : Thrown) :
  outcome (EthereumSchemaRegistry.createSchema w self schemaId json) = Rejected raised ->
  count isContractCall (trace (EthereumSchemaRegistry.createSchema w self schemaId json))
  <= 1
  /\ (instanceof raised SchemaRegistryErrorC = true
      \/ contract_createSchema w (schemaRegistryContract self) schemaId json
         = Rejected ThrowUndefined).
Proof.
  unfold EthereumSchemaRegistry.createSchema.
  rewrite validateSchemaId_cases, validateJson_cases.
  destruct (registry_wallet self);
    [ | cbn; intros [= <-]; split; [ lia | left; reflexivity ] ].
  destruct (isBlank schemaId);
    [ cbn; intros [= <-]; split; [ lia | left; reflexivity ] | ].
  destruct (256 <? String.length schemaId)%nat;
    [ cbn; intros [= <-]; split; [ lia | left; reflexivity ] | ].
  destruct (isBlank json);
    [ cbn; intros [= <-]; split; [ lia | left; reflexivity ] | ].
  destruct (JSON_parse_ok w json);
    [ | cbn; intros [= <-]; split; [ lia | left; reflexivity ] ].
  rewrite !bind_ret, contract_call_run. cbn [outcome trace fst snd].
  destruct (contract_createSchema w (schemaRegistryContract self) schemaId json)
    as [receipt | e]; [ discriminate | ].
  intros H. split; [ cbn; lia | ].
  destruct (handled_error_is_typed e raised H) as [Ht | ->]; [ left | right ]; auto.
Qed.

Lemma createSchema_rejections_are_typed_witness :
  outcome (EthereumSchemaRegistry.createSchema
             Scenario.taken Sample.registry Sample.storedSchemaId Sample.storedSchema)
  = Rejected (new_ContractError "Schema already exists for this address and schema ID"
                                (Some "SCHEMA_EXISTS") (Some Scenario.schemaExists))
  /\ count isContractCall
           (trace (EthereumSchemaRegistry.createSchema
                     Scenario.taken Sample.registry Sample.storedSchemaId
                     Sample.storedSchema)) <= 1.
Proof.
  assert (H : outcome (EthereumSchemaRegistry.createSchema
                         Scenario.taken Sample.registry Sample.storedSchemaId
                         Sample.storedSchema)
              = Rejected (new_ContractError
                            "Schema already exists for this address and schema ID"
                            (Some "SCHEMA_EXISTS") (Some Scenario.schemaExists)))
    by (vm_compute; reflexivity).
  split; [ exact H | ].
  exact (proj1 (createSchema_rejections_are_typed
                  Scenario.taken Sample.registry Sample.storedSchemaId
                  Sample.storedSchema _ H)).
Defined.



(** X8.  [getSchema] with an address that is empty or that [isAddress]
    refuses, or with a schema id that is blank or longer than 256
    characters, settles rejected with a [ValidationError] without reading
    the contract. *)
Theorem getSchema_validates_before_reading
        (w : World) (self : SchemaRegistry) (address schemaId : string) :
  truthy address = false \/ isAddress w address = false
  \/ isBlank schemaId = true \/ 256 < String.length schemaId ->
  exists msg,
    EthereumSchemaRegistry.getSchema w self address schemaId
    = ([], Rejected (new_ValidationError msg None)).
Proof.
  intros Hbad.
  unfold EthereumSchemaRegistry.getSchema, EthereumSchemaRegistry.validateAddress.
  rewrite validateSchemaId_cases.
  destruct (truthy address) eqn:Ht; [ | eexists; reflexivity ].
  destruct (isAddress w address) eqn:Ha; [ | eexists; reflexivity ].
  cbn [negb orb]. rewrite bind_ret.
  destruct (isBlank schemaId) eqn:Hid; [ eexists; reflexivity | ].
  destruct (256 <? String.length schemaId)%nat eqn:Hlen; [ eexists; reflexivity | ].
  apply Nat.ltb_ge in Hlen.
  destruct Hbad as [H | [H | [H | H]]]; solve [ discriminate | lia ].
Qed.

Lemma getSchema_validates_before_reading_witness :
  (truthy "invalid-address" = false \/ isAddress Sample.here "invalid-address" = false
   \/ isBlank Sample.storedSchemaId = true \/ 256 < String.length Sample.storedSchemaId)
  /\ exists msg,
      EthereumSchemaRegistry.getSchema Sample.here Sample.registry
                                       "invalid-address" Sample.storedSchemaId
      = ([], Rejected (new_ValidationError msg None)).
Proof.
  assert (H : truthy "invalid-address" = false
              \/ isAddress Sample.here "invalid-address" = false
              \/ isBlank Sample.storedSchemaId = true
              \/ 256 < String.length Sample.storedSchemaId)
    by (right; left; vm_compute; reflexivity).
  split; [ exact H | ].
  exact (getSchema_validates_before_reading
           Sample.here Sample.registry "invalid-address" Sample.storedSchemaId H).
Defined.

Lemma validateAddress_cases (w : World) (address : string) :
  EthereumSchemaRegistry.validateAddress w address
  = if truthy address && isAddress w address then ret tt
    else throw (new_ValidationError "Invalid address" None).
Proof.
  unfold EthereumSchemaRegistry.validateAddress.
  destruct (truthy address), (isAddress w address); reflexivity.
Qed.

(** X9.  With a signer, [adminCreateSchema] checks the target address
    first: an address that is empty or that [isAddress] refuses gives the
    [ValidationError] "Invalid address", whatever the schema id and the JSON
    text are; and any invalid argument gives a [ValidationError] without a
    call of the contract. *)
Theorem adminCreateSchema_validates_address_first
        (w : World) (c : ContractSurface) (self : SchemaRegistry) (key : SigningKey)
        (address schemaId json : string) :
  registry_wallet self = Some key ->
  (truthy address && isAddress w address = false ->
   EthereumSchemaRegistryOps.adminCreateSchema w c self address schemaId json
   = ([], Rejected (new_ValidationError "Invalid address" None)))
  /\ (isBlank schemaId = true \/ 256 < String.length schemaId
      \/ isBlank json = true \/ JSON_parse_ok w json = false ->
      exists msg,
        EthereumSchemaRegistryOps.adminCreateSchema w c self address schemaId json
        = ([], Rejected (new_ValidationError msg None))).
Proof.
  intros Hkey. unfold EthereumSchemaRegistryOps.adminCreateSchema.
  rewrite Hkey, validateAddress_cases, validateSchemaId_cases, validateJson_cases.
  split.
  - intros Haddress. rewrite Haddress. reflexivity.
  - intros Hbad.
    destruct (truthy address && isAddress w address); [ | eexists; reflexivity ].
    rewrite bind_ret.
    destruct (isBlank schemaId) eqn:Hid; [ eexists; reflexivity | ].
    destruct (256 <? String.length schemaId)%nat eqn:Hlen; [ eexists; reflexivity | ].
    apply Nat.ltb_ge in Hlen. rewrite bind_ret.
    destruct (isBlank json) eqn:Hjson; [ eexists; reflexivity | ].
    destruct (JSON_parse_ok w json) eqn:Hparse; [ | eexists; reflexivity ].
    destruct Hbad as [H | [H | [H | H]]]; solve [ discriminate | lia ].
Qed.

Lemma adminCreateSchema_validates_address_first_witness :
  registry_wallet Sample.registry = Some Sample.signer
  /\ truthy "invalid-address" && isAddress Sample.here "invalid-address" = false
  /\ EthereumSchemaRegistryOps.adminCreateSchema
       Sample.here Scenario.contract Sample.registry "invalid-address" "" "invalid-json"
     = ([], Rejected (new_ValidationError "Invalid address" None)).
Proof.
  assert (H : truthy "invalid-address" && isAddress Sample.here "invalid-address" = false)
    by (vm_compute; reflexivity).
  split; [ reflexivity | split; [ exact H | ] ].
  exact (proj1 (adminCreateSchema_validates_address_first
                  Sample.here Scenario.contract Sample.registry Sample.signer
                  "invalid-address" "" "invalid-json" eq_refl) H).
Defined.



(** X11.  With a signer, [transferOwnership] to an address that is empty or
    that [isAddress] refuses settles rejected with the [ValidationError]
    "Invalid address" and never reaches the contract; with a valid address
    it calls the contract exactly once and returns its receipt unchanged. *)
Theorem transferOwnership_validates_new_owner
        (w : World) (c : ContractSurface) (self : SchemaRegistry) (key : SigningKey)
        (newOwner : string) :
  registry_wallet self = Some key ->
  EthereumSchemaRegistryOps.transferOwnership w c self newOwner
  = if truthy newOwner && isAddress w newOwner
    then ([ContractCall "transferOwnership" [newOwner]],
          match contract_transferOwnership c (schemaRegistryContract self) newOwner with
          | Fulfilled receipt => Fulfilled receipt
          | Rejected e =>
              outcome (@EthereumSchemaRegistry.handleContractError
                         ContractTransactionReceipt e)
          end)
    else ([], Rejected (new_ValidationError "Invalid address" None)).
Proof.
  intros Hkey. unfold EthereumSchemaRegistryOps.transferOwnership.
  rewrite Hkey, validateAddress_cases.
  destruct (truthy newOwner && isAddress w newOwner); [ | reflexivity ].
  rewrite bind_ret. apply contract_call_run.
Qed.

Lemma transferOwnership_validates_new_owner_witness :
  registry_wallet Sample.registry = Some Sample.signer
  /\ EthereumSchemaRegistryOps.transferOwnership
       Sample.here Scenario.contract Sample.registry "invalid-address"
     = ([], Rejected (new_ValidationError "Invalid address" None)).
Proof.
  split; [ reflexivity | ].
  exact (transferOwnership_validates_new_owner
           Sample.here Scenario.contract Sample.registry Sample.signer
           "invalid-address" eq_refl).
Defined.

(** X12.  The reads [getSchemaIds] and [getOwner] and the two owner's
    functions issue at most one contract call each, and each of their
    rejections is a [SchemaRegistryError] unless the contract threw
    [undefined]. *)
Theorem registry_operations_are_typed
        (w : World) (c : ContractSurface) (self : SchemaRegistry)
        (address schemaId json : string) (raised : Thrown) :
  (outcome (EthereumSchemaRegistryOps.adminCreateSchema w c self address schemaId json)
   = Rejected raised ->
   instanceof raised SchemaRegistryErrorC = true
   \/ contract_adminCreateSchema c (schemaRegistryContract self) address schemaId json
      = Rejected ThrowUndefined)
  /\ (outcome (EthereumSchemaRegistryOps.getSchemaIds w c self address) = Rejected raised ->
      instanceof raised SchemaRegistryErrorC = true
      \/ contract_getSchemaIds c (schemaRegistryContract self) address
         = Rejected ThrowUndefined)
  /\ (outcome (EthereumSchemaRegistryOps.getOwner c self) = Rejected raised ->
      instanceof raised SchemaRegistryErrorC = true
      \/ contract_owner c (schemaRegistryContract self) = Rejected ThrowUndefined)
  /\ (outcome (EthereumSchemaRegistryOps.transferOwnership w c self address)
      = Rejected raised ->
      instanceof raised SchemaRegistryErrorC = true
      \/ contract_transferOwnership c (schemaRegistryContract self) address
         = Rejected ThrowUndefined)
  /\ count isContractCall
           (trace (EthereumSchemaRegistryOps.adminCreateSchema
                     w c self address schemaId json)) <= 1
  /\ count isContractCall (trace (EthereumSchemaRegistryOps.getSchemaIds w c self address))
     <= 1
  /\ count isContractCall (trace (EthereumSchemaRegistryOps.getOwner c self)) = 1
  /\ count isContractCall
           (trace (EthereumSchemaRegistryOps.transferOwnership w c self address)) <= 1.
Proof.
  unfold EthereumSchemaRegistryOps.adminCreateSchema,
    EthereumSchemaRegistryOps.getSchemaIds, EthereumSchemaRegistryOps.getOwner,
    EthereumSchemaRegistryOps.transferOwnership.
  rewrite !validateAddress_cases, validateSchemaId_cases, validateJson_cases,
    !contract_call_run.
  assert (Hcall : forall A (o : Outcome A),
             outcome (A := A)
               ([ContractCall "x" []],
                match o with
                | Fulfilled v => Fulfilled v
                | Rejected e => outcome (@EthereumSchemaRegistry.handleContractError A e)
                end) = Rejected raised ->
             instanceof raised SchemaRegistryErrorC = true \/ o = Rejected ThrowUndefined).
  { intros A [v | e]; cbn; [ discriminate | ].
    intros H. destruct (handled_error_is_typed e raised H) as [Ht | ->]; auto. }
  destruct (registry_wallet self);
    destruct (truthy address && isAddress w address);
    destruct (isBlank schemaId); destruct (256 <? String.length schemaId)%nat;
    destruct (isBlank json); destruct (JSON_parse_ok w json);
    rewrite ?bind_ret, ?contract_call_run;
    repeat split;
    try (cbn; lia);
    try (cbn; intros [= <-]; left; reflexivity);
    try (apply (Hcall _ _)).
Qed.

(* ====================================================================== *)
(** ** The ledger service: events *)

Lemma count_app (kind : Event -> bool) (a b : list Event) :
  count kind (a ++ b) = count kind a + count kind b.
Proof. unfold count. rewrite filter_app, length_app. reflexivity. Qed.

Lemma count_logs (kind : Event -> bool) (logs : list Event) :
  (forall ev, isLog ev = true -> kind ev = false) ->
  forallb isLog logs = true ->
  count kind logs = 0.
Proof.
  intros Hkind. unfold count. induction logs as [ | ev logs IH]; [ reflexivity | ].
  cbn [forallb filter]. intros H. apply andb_true_iff in H as [Hev Hlogs].
  rewrite (Hkind ev Hev). exact (IH Hlogs).
Qed.

Lemma quiet_bind {A B} (m : M A) (k : A -> M B) :
  trace m = [] -> (forall a, trace (k a) = []) -> trace (bind m k) = [].
Proof.
  intros Hm Hk. rewrite trace_bind, Hm. destruct (outcome m); [ apply Hk | reflexivity ].
Qed.

Lemma quiet_try_catch {A} (m : M A) (h : Thrown -> M A) :
  trace m = [] -> (forall e, trace (h e) = []) -> trace (try_catch m h) = [].
Proof.
  intros Hm Hh. rewrite trace_try_catch, Hm.
  destruct (outcome m); [ reflexivity | apply Hh ].
Qed.

(** Show that a computation issues no event. *)
Ltac quiet :=
  repeat first
    [ reflexivity
    | apply quiet_bind; [ | intros ? ]
    | apply quiet_try_catch; [ | intros ? ]
    | match goal with
      | |- context [match ?x with _ => _ end] => destruct x
      end ].

Lemma checks_quiet (self : LedgerService) (options : SchemaCreateOptions) :
  trace (EthereumLedgerService.createSchema_checks self options) = [].
Proof. unfold EthereumLedgerService.createSchema_checks. quiet. Qed.

Lemma getPublicKeyFromDid_quiet (w : World) (agentContext : AgentContext) (did : string) :
  trace (EthereumLedgerService.getPublicKeyFromDid w agentContext did) = [].
Proof. unfold EthereumLedgerService.getPublicKeyFromDid. quiet. Qed.

Lemma getSigningKey_quiet (w : World) (wallet : Wallet) (publicKeyBase58 : string) :
  trace (EthereumLedgerService.getSigningKey w wallet publicKeyBase58) = [].
Proof. unfold EthereumLedgerService.getSigningKey. quiet. Qed.

Lemma constructor_quiet (w : World) (config : SchemaRegistryConfig) :
  trace (EthereumSchemaRegistry.new w config) = [].
Proof.
  unfold EthereumSchemaRegistry.new, EthereumSchemaRegistry.validateConfig. quiet.
Qed.

Lemma prepare_quiet (w : World) (agentContext : AgentContext)
      (options : SchemaCreateOptions) (settings : EthereumLedgerService.Settings) :
  trace (EthereumLedgerService.createSchema_prepare w agentContext options settings) = [].
Proof.
  unfold EthereumLedgerService.createSchema_prepare.
  apply quiet_bind; [ apply getPublicKeyFromDid_quiet | intros keyResult ].
  destruct (negb (truthy (EthereumLedgerService.publicKeyBase58 keyResult)));
    [ reflexivity | ].
  apply quiet_bind; [ apply getSigningKey_quiet | intros signingKey ].
  apply quiet_bind; [ apply constructor_quiet | intros registry ].
  unfold schemaHelper.buildSchemaResource. quiet.
Qed.

(** The events of the two concurrent calls. *)
Lemma write_events (w : World) (p : EthereumLedgerService.Prepared) :
  trace (EthereumLedgerService.blockchainWrite w p) = []
  \/ exists json,
      trace (EthereumLedgerService.blockchainWrite w p)
      = [ContractCall "createSchema" [EthereumLedgerService.fresh_schemaId p; json]].
Proof.
  unfold EthereumLedgerService.blockchainWrite, EthereumSchemaRegistry.createSchema.
  rewrite validateSchemaId_cases, validateJson_cases.
  destruct (registry_wallet _); [ | left; reflexivity ].
  destruct (isBlank _); [ left; reflexivity | ].
  destruct (256 <? _)%nat; [ left; reflexivity | ].
  destruct (isBlank _); [ left; reflexivity | ].
  destruct (JSON_parse_ok w _); [ | left; reflexivity ].
  rewrite !bind_ret, contract_call_run. right. eexists. reflexivity.
Qed.

Lemma upload_events (w : World) (schemaId : string) (schema : JsObject)
      (fileServerUrl fileServerToken : string) :
  trace (schemaHelper.uploadSchemaFile w schemaId schema fileServerUrl fileServerToken)
  = if negb (truthy schemaId) || (Object_keys_length schema =? 0)%nat
    then []
    else [HttpPost (fileServerUrl ++ "/schemas") ("Bearer " ++ fileServerToken)
                   (JSON_stringify w (JObj [("schemaId", JStr schemaId);
                                            ("schema", JObj schema)]))].
Proof.
  unfold schemaHelper.uploadSchemaFile.
  destruct (negb (truthy schemaId) || (Object_keys_length schema =? 0)%nat);
    [ reflexivity | ].
  cbn [url header_Authorization data].
  match goal with
  | |- context [axios w ?request] => destruct (axios w request)
  end; reflexivity.
Qed.

(** The events of lines 109-146: those of the write, those of the upload,
    then log lines. *)
Lemma join_events (w : World) (options : SchemaCreateOptions)
      (settings : EthereumLedgerService.Settings) (p : EthereumLedgerService.Prepared) :
  exists logs,
    forallb isLog logs = true
    /\ trace (EthereumLedgerService.createSchema_join w options settings p)
       = (trace (EthereumLedgerService.blockchainWrite w p)
            ++ trace (EthereumLedgerService.fileUpload w options settings p)
            ++ logs)%list.
Proof.
  unfold EthereumLedgerService.createSchema_join, allSettled1.
  destruct (EthereumLedgerService.blockchainWrite w p) as [t1 [result | reason1]];
    destruct (EthereumLedgerService.fileUpload w options settings p)
      as [t2 [response | reason2]];
    cbn [bind fst snd trace emit ret throw app];
    repeat match goal with
      | |- context [if ?b then _ else _] => destruct b
      end;
    cbn [bind fst snd trace emit ret throw app];
    eexists; (split; [ | reflexivity ]); reflexivity.
Qed.

(** The events of a whole [createSchema]: log lines only, unless the checks
    and lines 90-106 succeed; then the write's events and the upload's,
    between log lines. *)
Lemma createSchema_events
      (w : World) (self : LedgerService) (agentContext : AgentContext)
      (options : SchemaCreateOptions) :
  (forallb isLog (trace (EthereumLedgerService.createSchema w self agentContext options))
   = true
   /\ forall settings p,
       outcome (EthereumLedgerService.createSchema_checks self options)
       = Fulfilled settings ->
       outcome (EthereumLedgerService.createSchema_prepare w agentContext options settings)
       <> Fulfilled p)
  \/ (exists settings p logs,
         outcome (EthereumLedgerService.createSchema_checks self options)
         = Fulfilled settings
         /\ outcome (EthereumLedgerService.createSchema_prepare
                       w agentContext options settings) = Fulfilled p
         /\ forallb isLog logs = true
         /\ trace (EthereumLedgerService.createSchema w self agentContext options)
            = (Log Info ("Creating schema on ledger: " ++ did options)
                 :: trace (EthereumLedgerService.blockchainWrite w p)
                 ++ trace (EthereumLedgerService.fileUpload w options settings p)
                 ++ logs)%list).
Proof.
  destruct (outcome (EthereumLedgerService.createSchema_checks self options))
    as [settings | e0] eqn:Hchecks.
  - rewrite (createSchema_after_checks w self agentContext options settings Hchecks).
    cbn [trace fst]. rewrite trace_try_catch.
    destruct (outcome (EthereumLedgerService.createSchema_prepare
                         w agentContext options settings)) as [p | e1] eqn:Hprepare.
    + right. exists settings, p.
      rewrite (createSchema_try_after_prepare w agentContext options settings p Hprepare).
      cbn [trace outcome fst snd]. rewrite prepare_quiet. cbn [app].
      destruct (join_events w options settings p) as [logs [Hlogs Hjoin]].
      rewrite Hjoin.
      destruct (outcome (EthereumLedgerService.createSchema_join w options settings p))
        as [result | e2].
      * exists logs. repeat split; auto.
      * unfold EthereumLedgerService.createSchema_catch.
        destruct (instanceof e2 EthereumLedgerErrorC); cbn [throw bind emit fst trace].
        -- exists logs. rewrite app_nil_r. repeat split; auto.
        -- exists (logs ++ [Log ErrorLevel
                              ("Schema creation failed for DID: " ++ did options)])%list.
           split; [ reflexivity | split; [ exact Hprepare | split ] ];
             [ | rewrite <- !app_assoc; reflexivity ].
           rewrite forallb_app, Hlogs. reflexivity.
    + left. split; [ | intros s p Hs; injection Hs as <-; rewrite Hprepare; discriminate ].
      unfold EthereumLedgerService.createSchema_try.
      rewrite outcome_bind, trace_bind, Hprepare, prepare_quiet.
      unfold EthereumLedgerService.createSchema_catch.
      destruct (instanceof e1 EthereumLedgerErrorC); reflexivity.
  - left. split; [ | intros s p Hs; discriminate ].
    unfold EthereumLedgerService.createSchema.
    rewrite trace_bind, Hchecks, checks_quiet. reflexivity.
Qed.

Lemma checks_need_settings (self : LedgerService) (options : SchemaCreateOptions) :
  optTruthy (schemaManagerContractAddress self) = false
  \/ optTruthy (service_rpcUrl self) = false
  \/ optTruthy (fileServerUrl self) = false
  \/ optTruthy (fileServerToken self) = false ->
  EthereumLedgerService.createSchema_checks self options = throw creationSettingsError.
Proof.
  intros H. unfold EthereumLedgerService.createSchema_checks.
  destruct (EthereumLedgerService.configured (schemaManagerContractAddress self)) eqn:H1;
    [ | reflexivity ].
  destruct (EthereumLedgerService.configured (service_rpcUrl self)) eqn:H2;
    [ | reflexivity ].
  destruct (EthereumLedgerService.configured (fileServerUrl self)) eqn:H3;
    [ | reflexivity ].
  destruct (EthereumLedgerService.configured (fileServerToken self)) eqn:H4;
    [ | reflexivity ].
  destruct H as [H | [H | [H | H]]]; apply configured_truthy in H; congruence.
Qed.

(** X13.  When one of the four settings (contract address, RPC URL, file
    server URL, file server token) is undefined or empty, [createSchema]
    settles rejected with the [SchemaCreationError] that names them, before
    any event: nothing is logged, looked up, written or posted. *)
Theorem createSchema_needs_all_settings
        (w : World) (self : LedgerService) (agentContext : AgentContext)
        (options : SchemaCreateOptions) :
  optTruthy (schemaManagerContractAddress self) = false
  \/ optTruthy (service_rpcUrl self) = false
  \/ optTruthy (fileServerUrl self) = false
  \/ optTruthy (fileServerToken self) = false ->
  EthereumLedgerService.createSchema w self agentContext options
  = ([], Rejected creationSettingsError).
Proof.
  intros H. unfold EthereumLedgerService.createSchema.
  rewrite (checks_need_settings self options H). reflexivity.
Qed.

Lemma createSchema_needs_all_settings_witness :
  (optTruthy (schemaManagerContractAddress Sample.noNode) = false
   \/ optTruthy (service_rpcUrl Sample.noNode) = false
   \/ optTruthy (fileServerUrl Sample.noNode) = false
   \/ optTruthy (fileServerToken Sample.noNode) = false)
  /\ EthereumLedgerService.createSchema
       Sample.here Sample.noNode (Sample.agentContext Sample.unreachable) Sample.options
     = ([], Rejected creationSettingsError).
Proof.
  assert (H : optTruthy (schemaManagerContractAddress Sample.noNode) = false
              \/ optTruthy (service_rpcUrl Sample.noNode) = false
              \/ optTruthy (fileServerUrl Sample.noNode) = false
              \/ optTruthy (fileServerToken Sample.noNode) = false)
    by (right; left; reflexivity).
  split; [ exact H | ].
  exact (createSchema_needs_all_settings
           Sample.here Sample.noNode (Sample.agentContext Sample.unreachable)
           Sample.options H).
Defined.

(** Blank strings are those made of white space only. *)
Lemma trimStart_allWhiteSpace (s : string) :
  allWhiteSpace s = true -> trimStart s = EmptyString.
Proof.
  induction s as [ | c s IH]; [ reflexivity | ].
  cbn [allWhiteSpace trimStart]. intros H. apply andb_true_iff in H as [Hc Hs].
  rewrite Hc. exact (IH Hs).
Qed.

Lemma trimStart_first (s : string) :
  allWhiteSpace s = false ->
  exists c r, trimStart s = String c r /\ isWhiteSpace c = false.
Proof.
  induction s as [ | c s IH]; [ discriminate | ].
  cbn [allWhiteSpace trimStart]. destruct (isWhiteSpace c) eqn:Hc.
  - exact IH.
  - intros _. exists c, s. split; [ reflexivity | exact Hc ].
Qed.

Lemma isBlank_allWhiteSpace (s : string) : isBlank s = allWhiteSpace s.
Proof.
  unfold isBlank, trim. destruct (allWhiteSpace s) eqn:H.
  - rewrite (trimStart_allWhiteSpace s H). reflexivity.
  - destruct (trimStart_first s H) as [c [r [Hstart Hc]]]. rewrite Hstart.
    cbn [trimEnd]. destruct (trimEnd r); [ rewrite Hc | ]; reflexivity.
Qed.

(** X14.  A DID or a schema name made of white space only (the empty
    string included), or a schema without properties, makes [createSchema]
    settle rejected with a [SchemaCreationError] before any event, whatever
    the settings are. *)
Theorem createSchema_rejects_blank_input
        (w : World) (self : LedgerService) (agentContext : AgentContext)
        (options : SchemaCreateOptions) :
  allWhiteSpace (did options) = true
  \/ allWhiteSpace (schemaName options) = true
  \/ schema options = [] ->
  exists msg,
    EthereumLedgerService.createSchema w self agentContext options
    = ([], Rejected (new_SchemaCreationError msg None)).
Proof.
  intros Hblank. unfold EthereumLedgerService.createSchema,
    EthereumLedgerService.createSchema_checks.
  rewrite !isBlank_allWhiteSpace.
  repeat match goal with
    | |- context [match EthereumLedgerService.configured ?x with _ => _ end] =>
        destruct (EthereumLedgerService.configured x)
    end; try (eexists; reflexivity).
  destruct (allWhiteSpace (did options)) eqn:Hdid; [ eexists; reflexivity | ].
  destruct (allWhiteSpace (schemaName options)) eqn:Hname; [ eexists; reflexivity | ].
  destruct Hblank as [H | [H | H]]; try discriminate.
  rewrite H. eexists; reflexivity.
Qed.

Lemma createSchema_rejects_blank_input_witness :
  (allWhiteSpace (did (Scenario.optionsFor "   ")) = true
   \/ allWhiteSpace (schemaName (Scenario.optionsFor "   ")) = true
   \/ schema (Scenario.optionsFor "   ") = [])
  /\ exists msg,
      EthereumLedgerService.createSchema
        Sample.here (Sample.service Sample.unreachable)
        (Sample.agentContext Sample.unreachable) (Scenario.optionsFor "   ")
      = ([], Rejected (new_SchemaCreationError msg None)).
Proof.
  assert (H : allWhiteSpace (did (Scenario.optionsFor "   ")) = true
              \/ allWhiteSpace (schemaName (Scenario.optionsFor "   ")) = true
              \/ schema (Scenario.optionsFor "   ") = [])
    by (left; reflexivity).
  split; [ exact H | ].
  exact (createSchema_rejects_blank_input
           Sample.here (Sample.service Sample.unreachable)
           (Sample.agentContext Sample.unreachable) (Scenario.optionsFor "   ") H).
Defined.

Lemma checks_rejection (self : LedgerService) (options : SchemaCreateOptions)
      (e : Thrown) :
  outcome (EthereumLedgerService.createSchema_checks self options) = Rejected e ->
  exists msg, e = new_SchemaCreationError msg None.
Proof.
  unfold EthereumLedgerService.createSchema_checks.
  repeat match goal with
    | |- context [match ?x with _ => _ end] => destruct x
    end; cbn; intros H; try discriminate; injection H as <-; eexists; reflexivity.
Qed.

(** X15.  Whatever the collaborators do, a rejection of [createSchema] or
    of [getSchemaByDidAndSchemaId] is an [EthereumLedgerError]: no other
    thrown value leaves the service. *)
Theorem service_rejections_are_ledger_errors
        (w : World) (self : LedgerService) (agentContext : AgentContext)
        (options : SchemaCreateOptions) (did schemaId : string) (raised : Thrown) :
  (outcome (EthereumLedgerService.createSchema w self agentContext options)
   = Rejected raised ->
   instanceof raised EthereumLedgerErrorC = true)
  /\ (outcome (EthereumLedgerService.getSchemaByDidAndSchemaId
                 w self agentContext did schemaId) = Rejected raised ->
      instanceof raised EthereumLedgerErrorC = true).
Proof.
  split.
  - destruct (outcome (EthereumLedgerService.createSchema_checks self options))
      as [settings | e0] eqn:Hchecks.
    + rewrite (createSchema_after_checks w self agentContext options settings Hchecks).
      cbn [outcome snd]. rewrite outcome_try_catch.
      destruct (outcome (EthereumLedgerService.createSchema_try
                           w agentContext options settings)) as [result | e];
        [ discriminate | ].
      unfold EthereumLedgerService.createSchema_catch.
      destruct (instanceof e EthereumLedgerErrorC) eqn:He; cbn; intros [= <-];
        [ exact He | reflexivity ].
    + unfold EthereumLedgerService.createSchema.
      rewrite outcome_bind, Hchecks. intros [= <-].
      destruct (checks_rejection self options e0 Hchecks) as [msg ->]. reflexivity.
  - unfold EthereumLedgerService.getSchemaByDidAndSchemaId.
    destruct (isBlank did); [ cbn; intros [= <-]; reflexivity | ].
    destruct (isBlank schemaId); [ cbn; intros [= <-]; reflexivity | ].
    rewrite outcome_bind. cbn [outcome emit snd]. rewrite outcome_try_catch.
    destruct (outcome (EthereumLedgerService.getSchemaByDidAndSchemaId_try
                         w self agentContext did schemaId)) as [result | e];
      [ discriminate | ].
    unfold EthereumLedgerService.getSchemaByDidAndSchemaId_catch.
    destruct (instanceof e EthereumLedgerErrorC) eqn:He; cbn; intros [= <-];
      [ exact He | reflexivity ].
Qed.

(** X16.  When the checks pass and lines 90-106 fail with [e] (the DID has
    no record, no usable key, the wallet has no entry, the registry client
    cannot be built), [createSchema] has called neither the contract nor the
    file server: its events are log lines only.  It settles rejected with
    [e] itself if [e] is an [EthereumLedgerError], and with a
    [SchemaCreationError] otherwise. *)
Theorem createSchema_without_key_touches_nothing
        (w : World) (self : LedgerService) (agentContext : AgentContext)
        (options : SchemaCreateOptions) (settings : EthereumLedgerService.Settings)
        (e : Thrown) :
  outcome (EthereumLedgerService.createSchema_checks self options) = Fulfilled settings ->
  outcome (EthereumLedgerService.createSchema_prepare w agentContext options settings)
  = Rejected e ->
  count isContractCall
        (trace (EthereumLedgerService.createSchema w self agentContext options)) = 0
  /\ count isHttpPost
           (trace (EthereumLedgerService.createSchema w self agentContext options)) = 0
  /\ outcome (EthereumLedgerService.createSchema w self agentContext options)
     = Rejected
         (if instanceof e EthereumLedgerErrorC then e
          else new_SchemaCreationError
                 (if instanceof e ErrorC then interp (message e)
                  else "Unknown error occurred")
                 (if instanceof e ErrorC then Some e else None)).
Proof.
  intros Hchecks Hprepare.
  assert (Hlogs : forallb isLog
                    (trace (EthereumLedgerService.createSchema
                              w self agentContext options)) = true).
  { destruct (createSchema_events w self agentContext options)
      as [[H _] | [s [p [logs [Hs [Hp _]]]]]]; [ exact H | ].
    rewrite Hchecks in Hs. injection Hs as <-. rewrite Hprepare in Hp. discriminate. }
  split; [ | split ].
  - apply count_logs; [ intros [ | | ]; cbn; congruence | exact Hlogs ].
  - apply count_logs; [ intros [ | | ]; cbn; congruence | exact Hlogs ].
  - rewrite (createSchema_after_checks w self agentContext options settings Hchecks).
    cbn [outcome snd]. rewrite outcome_try_catch.
    unfold EthereumLedgerService.createSchema_try. rewrite outcome_bind, Hprepare.
    unfold EthereumLedgerService.createSchema_catch.
    destruct (instanceof e EthereumLedgerErrorC); reflexivity.
Qed.

Lemma createSchema_without_key_touches_nothing_witness :
  (outcome (EthereumLedgerService.createSchema_checks
              (Sample.service Sample.unreachable)
              (Scenario.optionsFor Scenario.unknownDid))
   = Fulfilled Sample.settings
   /\ outcome (EthereumLedgerService.createSchema_prepare
                Sample.here (Sample.agentContext Sample.unreachable)
                (Scenario.optionsFor Scenario.unknownDid) Sample.settings)
      = Rejected (new_CredoError "DidRecord not found"))
  /\ outcome (EthereumLedgerService.createSchema
               Sample.here (Sample.service Sample.unreachable)
               (Sample.agentContext Sample.unreachable)
               (Scenario.optionsFor Scenario.unknownDid))
     = Rejected (new_SchemaCreationError "DidRecord not found"
                                         (Some (new_CredoError "DidRecord not found"))).
Proof.
  assert (H1 : outcome (EthereumLedgerService.createSchema_checks
                          (Sample.service Sample.unreachable)
                          (Scenario.optionsFor Scenario.unknownDid))
               = Fulfilled Sample.settings) by (vm_compute; reflexivity).
  assert (H2 : outcome (EthereumLedgerService.createSchema_prepare
                          Sample.here (Sample.agentContext Sample.unreachable)
                          (Scenario.optionsFor Scenario.unknownDid) Sample.settings)
               = Rejected (new_CredoError "DidRecord not found"))
    by (vm_compute; reflexivity).
  split; [ split; assumption | ].
  exact (proj2 (proj2 (createSchema_without_key_touches_nothing
                         Sample.here (Sample.service Sample.unreachable)
                         (Sample.agentContext Sample.unreachable)
                         (Scenario.optionsFor Scenario.unknownDid) Sample.settings
                         (new_CredoError "DidRecord not found") H1 H2))).
Defined.

Lemma checks_imply_schema (self : LedgerService) (options : SchemaCreateOptions)
      (settings : EthereumLedgerService.Settings) :
  outcome (EthereumLedgerService.createSchema_checks self options) = Fulfilled settings ->
  (Object_keys_length (schema options) =? 0)%nat = false.
Proof.
  unfold EthereumLedgerService.createSchema_checks.
  repeat match goal with
    | |- context [match EthereumLedgerService.configured ?x with _ => _ end] =>
        destruct (EthereumLedgerService.configured x)
    end; try (cbn; discriminate).
  destruct (isBlank (did options)); [ cbn; discriminate | ].
  destruct (isBlank (schemaName options)); [ cbn; discriminate | ].
  destruct (Object_keys_length (schema options) =? 0)%nat;
    [ cbn; discriminate | reflexivity ].
Qed.

(** X17.  Once the on-chain write has settled fulfilled, the result of
    [createSchema] is decided by the receipt alone, whatever the upload
    does: a receipt with a hash gives the DID, the fresh schema id and the
    hash; a receipt with an empty hash gives the [SchemaCreationError]
    "Invalid response from blockchain". *)
Theorem createSchema_result_is_the_receipt
        (w : World) (self : LedgerService) (agentContext : AgentContext)
        (options : SchemaCreateOptions) (settings : EthereumLedgerService.Settings)
        (p : EthereumLedgerService.Prepared) (result : ContractTransactionReceipt) :
  outcome (EthereumLedgerService.createSchema_checks self options) = Fulfilled settings ->
  outcome (EthereumLedgerService.createSchema_prepare w agentContext options settings)
  = Fulfilled p ->
  outcome (EthereumLedgerService.blockchainWrite w p) = Fulfilled result ->
  outcome (EthereumLedgerService.createSchema w self agentContext options)
  = if truthy (hash result)
    then Fulfilled {| result_did := did options;
                      schemaId := EthereumLedgerService.fresh_schemaId p;
                      schemaTxnHash := Some (hash result) |}
    else Rejected (new_SchemaCreationError "Invalid response from blockchain" None).
Proof.
  intros Hchecks Hprepare Hwrite.
  rewrite (createSchema_after_checks w self agentContext options settings Hchecks).
  rewrite (createSchema_try_after_prepare w agentContext options settings p Hprepare).
  cbn [outcome snd]. rewrite outcome_try_catch. cbn [outcome snd].
  unfold EthereumLedgerService.createSchema_join, allSettled1.
  unfold outcome in Hwrite. rewrite Hwrite.
  destruct (EthereumLedgerService.fileUpload w options settings p)
    as [t [response | reason]];
    cbn [bind fst snd emit ret];
    destruct (truthy (hash result)); reflexivity.
Qed.

Lemma createSchema_result_is_the_receipt_witness :
  (outcome (EthereumLedgerService.createSchema_checks
              (Sample.service Sample.unreachable) Sample.options)
   = Fulfilled Sample.settings
   /\ outcome (EthereumLedgerService.createSchema_prepare
                Sample.here (Sample.agentContext Sample.unreachable)
                Sample.options Sample.settings)
      = Fulfilled Sample.prepared
   /\ outcome (EthereumLedgerService.blockchainWrite Sample.here Sample.prepared)
      = Fulfilled Sample.receipt)
  /\ outcome (EthereumLedgerService.createSchema
               Sample.here (Sample.service Sample.unreachable)
               (Sample.agentContext Sample.unreachable) Sample.options)
     = if truthy (hash Sample.receipt)
       then Fulfilled {| result_did := did Sample.options;
                         schemaId := EthereumLedgerService.fresh_schemaId Sample.prepared;
                         schemaTxnHash := Some (hash Sample.receipt) |}
       else Rejected (new_SchemaCreationError "Invalid response from blockchain" None).
Proof.
  assert (H1 : outcome (EthereumLedgerService.createSchema_checks
                          (Sample.service Sample.unreachable) Sample.options)
               = Fulfilled Sample.settings) by (vm_compute; reflexivity).
  assert (H2 : outcome (EthereumLedgerService.createSchema_prepare
                          Sample.here (Sample.agentContext Sample.unreachable)
                          Sample.options Sample.settings)
               = Fulfilled Sample.prepared) by (vm_compute; reflexivity).
  assert (H3 : outcome (EthereumLedgerService.blockchainWrite Sample.here Sample.prepared)
               = Fulfilled Sample.receipt) by (vm_compute; reflexivity).
  split; [ repeat split; assumption | ].
  exact (createSchema_result_is_the_receipt
           Sample.here (Sample.service Sample.unreachable)
           (Sample.agentContext Sample.unreachable) Sample.options
           Sample.settings Sample.prepared Sample.receipt H1 H2 H3).
Defined.

(** X18.  The upload does not wait for the write: once the checks and lines
    90-106 have succeeded with a fresh schema id that is not empty, the
    schema is posted to the file server, also when the on-chain write
    settles rejected and the whole call fails. *)
Theorem createSchema_posts_whatever_the_write_does
        (w : World) (self : LedgerService) (agentContext : AgentContext)
        (options : SchemaCreateOptions) (settings : EthereumLedgerService.Settings)
        (p : EthereumLedgerService.Prepared) :
  outcome (EthereumLedgerService.createSchema_checks self options) = Fulfilled settings ->
  outcome (EthereumLedgerService.createSchema_prepare w agentContext options settings)
  = Fulfilled p ->
  truthy (EthereumLedgerService.fresh_schemaId p) = true ->
  In (HttpPost (EthereumLedgerService.the_fileServerUrl settings ++ "/schemas")
               ("Bearer " ++ EthereumLedgerService.the_fileServerToken settings)
               (JSON_stringify w
                  (JObj [("schemaId", JStr (EthereumLedgerService.fresh_schemaId p));
                         ("schema", JObj (schema options))])))
     (trace (EthereumLedgerService.createSchema w self agentContext options)).
Proof.
  intros Hchecks Hprepare Hid.
  destruct (createSchema_events w self agentContext options)
    as [[_ H] | [s [q [logs [Hs [Hq [_ Htrace]]]]]]].
  - exfalso. exact (H settings p Hchecks Hprepare).
  - rewrite Hchecks in Hs. injection Hs as <-.
    rewrite Hprepare in Hq. injection Hq as <-.
    rewrite Htrace. right. apply in_or_app. right. apply in_or_app. left.
    unfold EthereumLedgerService.fileUpload.
    rewrite upload_events, Hid, (checks_imply_schema self options settings Hchecks).
    left. reflexivity.
Qed.

Lemma createSchema_posts_whatever_the_write_does_witness :
  (outcome (EthereumLedgerService.createSchema_checks
              (Sample.service Sample.unreachable) Sample.options)
   = Fulfilled Sample.settings
   /\ outcome (EthereumLedgerService.createSchema_prepare
                Sample.broke (Sample.agentContext Sample.unreachable)
                Sample.options Sample.settings)
      = Fulfilled Sample.prepared
   /\ truthy (EthereumLedgerService.fresh_schemaId Sample.prepared) = true)
  /\ outcome (EthereumLedgerService.blockchainWrite Sample.broke Sample.prepared)
     = Rejected Sample.fundsRejection
  /\ In (HttpPost (EthereumLedgerService.the_fileServerUrl Sample.settings ++ "/schemas")
                  ("Bearer " ++ EthereumLedgerService.the_fileServerToken Sample.settings)
                  (JSON_stringify Sample.broke
                     (JObj [("schemaId",
                             JStr (EthereumLedgerService.fresh_schemaId Sample.prepared));
                            ("schema", JObj (schema Sample.options))])))
        (trace (EthereumLedgerService.createSchema
                  Sample.broke (Sample.service Sample.unreachable)
                  (Sample.agentContext Sample.unreachable) Sample.options)).
Proof.
  assert (H1 : outcome (EthereumLedgerService.createSchema_checks
                          (Sample.service Sample.unreachable) Sample.options)
               = Fulfilled Sample.settings) by (vm_compute; reflexivity).
  assert (H2 : outcome (EthereumLedgerService.createSchema_prepare
                          Sample.broke (Sample.agentContext Sample.unreachable)
                          Sample.options Sample.settings)
               = Fulfilled Sample.prepared) by (vm_compute; reflexivity).
  assert (H3 : truthy (EthereumLedgerService.fresh_schemaId Sample.prepared) = true)
    by reflexivity.
  split; [ repeat split; assumption | ].
  split; [ vm_compute; reflexivity | ].
  exact (createSchema_posts_whatever_the_write_does
           Sample.broke (Sample.service Sample.unreachable)
           (Sample.agentContext Sample.unreachable) Sample.options
           Sample.settings Sample.prepared H1 H2 H3).
Defined.

(** X19.  No retry: whatever happens, one [createSchema] of the service
    submits at most one contract call and at most one post to the file
    server. *)
Theorem createSchema_never_retries
        (w : World) (self : LedgerService) (agentContext : AgentContext)
        (options : SchemaCreateOptions) :
  count isContractCall
        (trace (EthereumLedgerService.createSchema w self agentContext options)) <= 1
  /\ count isHttpPost
           (trace (EthereumLedgerService.createSchema w self agentContext options)) <= 1.
Proof.
  assert (Hcall : forall ev, isLog ev = true -> isContractCall ev = false)
    by (intros [ | | ]; cbn; congruence).
  assert (Hpost : forall ev, isLog ev = true -> isHttpPost ev = false)
    by (intros [ | | ]; cbn; congruence).
  destruct (createSchema_events w self agentContext options)
    as [[Hlogs _] | [settings [p [logs [_ [_ [Hlogs Htrace]]]]]]].
  - rewrite (count_logs _ _ Hcall Hlogs), (count_logs _ _ Hpost Hlogs). lia.
  - rewrite Htrace.
    change (Log Info ("Creating schema on ledger: " ++ did options)
              :: trace (EthereumLedgerService.blockchainWrite w p)
              ++ trace (EthereumLedgerService.fileUpload w options settings p) ++ logs)%list
      with ([Log Info ("Creating schema on ledger: " ++ did options)]
              ++ trace (EthereumLedgerService.blockchainWrite w p)
              ++ trace (EthereumLedgerService.fileUpload w options settings p) ++ logs)%list.
    rewrite !count_app, (count_logs _ _ Hcall Hlogs), (count_logs _ _ Hpost Hlogs).
    unfold EthereumLedgerService.fileUpload. rewrite upload_events.
    destruct (write_events w p) as [-> | [json ->]];
      destruct (negb (truthy (EthereumLedgerService.fresh_schemaId p))
                || (Object_keys_length (schema options) =? 0)%nat);
      cbn; lia.
Qed.

(* ====================================================================== *)
(** ** The ledger service: key material *)

Lemma find_first {A} (f : A -> bool) (before after : list A) (x : A) :
  forallb (fun y => negb (f y)) before = true ->
  f x = true ->
  List.find f (before ++ x :: after)%list = Some x.
Proof.
  intros Hbefore Hx. induction before as [ | y before IH]; cbn.
  - rewrite Hx. reflexivity.
  - cbn in Hbefore. apply andb_true_iff in Hbefore as [Hy Hrest].
    apply negb_true_iff in Hy. rewrite Hy. exact (IH Hrest).
Qed.

Lemma find_none {A} (f : A -> bool) (l : list A) :
  forallb (fun y => negb (f y)) l = true -> List.find f l = None.
Proof.
  induction l as [ | y l IH]; cbn; [ reflexivity | ].
  intros H. apply andb_true_iff in H as [Hy Hrest].
  apply negb_true_iff in Hy. rewrite Hy. exact (IH Hrest).
Qed.

(** X20.  The public key comes from the first verification method of the
    stored document that has hexadecimal key material, wherever the
    preferred blockchain account id comes from: the two are looked up
    independently. *)
Theorem getPublicKeyFromDid_takes_first_hex_key
        (w : World) (agentContext : AgentContext) (did : string)
        (didRecord : DidRecord) (document : StoredDidDocument)
        (before after : list VerificationMethod) (keyObj : VerificationMethod)
        (hex account : string) :
  findCreatedDid agentContext did = Fulfilled (Some didRecord) ->
  record_didDocument didRecord = Some document ->
  verificationMethod document = Some (before ++ keyObj :: after)%list ->
  forallb (fun obj => negb (optTruthy (publicKeyHex obj))) before = true ->
  publicKeyHex keyObj = Some hex ->
  truthy hex = true ->
  getPreferredKey w (before ++ keyObj :: after)%list = Fulfilled account ->
  EthereumLedgerService.getPublicKeyFromDid w agentContext did
  = ([], Fulfilled {| EthereumLedgerService.publicKeyBase58 := hexToBase58 w hex;
                      EthereumLedgerService.keyResult_blockchainAccountId := account |}).
Proof.
  intros Hrecord Hdocument Hmethods Hbefore Hhex Htruthy Haccount.
  unfold EthereumLedgerService.getPublicKeyFromDid.
  rewrite Hrecord, bind_settle_fulfilled, Hdocument, Hmethods, Haccount,
    bind_settle_fulfilled.
  rewrite (find_first _ before after keyObj Hbefore);
    [ | rewrite Hhex; exact Htruthy ].
  rewrite Hhex. cbn [EthereumLedgerService.configured]. rewrite Htruthy. reflexivity.
Qed.

Lemma getPublicKeyFromDid_takes_first_hex_key_witness :
  (forallb (fun obj => negb (optTruthy (publicKeyHex obj))) [Sample.method1] = true
   /\ publicKeyHex Sample.method2
      = Some "022527341df022c9b898999cf6035ed3addca5d30e703028deeb4408f890f3baca"
   /\ getPreferredKey Sample.here ([Sample.method1] ++ Sample.method2 :: [])%list
      = Fulfilled ("eip155:11155111:" ++ Sample.ownerAddress))
  /\ EthereumLedgerService.getPublicKeyFromDid
       Sample.here (Sample.agentContext Sample.unreachable) Sample.theDid
     = ([], Fulfilled
              {| EthereumLedgerService.publicKeyBase58 :=
                   hexToBase58
                     Sample.here
                     "022527341df022c9b898999cf6035ed3addca5d30e703028deeb4408f890f3baca";
                 EthereumLedgerService.keyResult_blockchainAccountId :=
                   "eip155:11155111:" ++ Sample.ownerAddress |}).
Proof.
  split; [ repeat split; reflexivity | ].
  exact (getPublicKeyFromDid_takes_first_hex_key
           Sample.here (Sample.agentContext Sample.unreachable) Sample.theDid
           {| record_didDocument :=
                Some {| verificationMethod := Some [Sample.method1; Sample.method2] |} |}
           {| verificationMethod := Some [Sample.method1; Sample.method2] |}
           [Sample.method1] [] Sample.method2
           "022527341df022c9b898999cf6035ed3addca5d30e703028deeb4408f890f3baca"
           ("eip155:11155111:" ++ Sample.ownerAddress)
           eq_refl eq_refl eq_refl eq_refl eq_refl eq_refl eq_refl).
Defined.

(** X21.  Without key material there is no key.  When the DID has no
    record, or its record no document or no list of verification methods,
    [getPublicKeyFromDid] settles rejected with a [CredoError].  When the
    list holds no method with hexadecimal key material (an empty list, or
    empty strings only), it settles rejected too: with the rejection of
    [getPreferredKey] if that fails first, else with a [CredoError] naming
    the DID. *)
Theorem getPublicKeyFromDid_without_key_material
        (w : World) (agentContext : AgentContext) (did : string)
        (stored : option DidRecord) :
  findCreatedDid agentContext did = Fulfilled stored ->
  (stored = None ->
   EthereumLedgerService.getPublicKeyFromDid w agentContext did
   = ([], Rejected (new_CredoError "DidRecord not found")))
  /\ (forall didRecord,
         stored = Some didRecord ->
         (record_didDocument didRecord = None
          \/ exists document,
              record_didDocument didRecord = Some document
              /\ verificationMethod document = None) ->
         EthereumLedgerService.getPublicKeyFromDid w agentContext did
         = ([], Rejected (new_CredoError
                            "VerificationMethod not found cannot get public key")))
  /\ (forall didRecord document methods,
         stored = Some didRecord ->
         record_didDocument didRecord = Some document ->
         verificationMethod document = Some methods ->
         forallb (fun obj => negb (optTruthy (publicKeyHex obj))) methods = true ->
         EthereumLedgerService.getPublicKeyFromDid w agentContext did
         = ([], Rejected
                  match getPreferredKey w methods with
                  | Rejected e => e
                  | Fulfilled _ =>
                      new_CredoError ("Public Key hex not found in wallet for did: " ++ did)
                  end)).
Proof.
  intros Hstored. unfold EthereumLedgerService.getPublicKeyFromDid.
  rewrite Hstored, bind_settle_fulfilled. split; [ | split ].
  - intros ->. reflexivity.
  - intros didRecord -> [H | [document [H1 H2]]].
    + rewrite H. reflexivity.
    + rewrite H1, H2. reflexivity.
  - intros didRecord document methods -> Hdocument Hmethods Hnone.
    rewrite Hdocument, Hmethods.
    destruct (getPreferredKey w methods) as [account | e]; [ | reflexivity ].
    rewrite bind_settle_fulfilled, (find_none _ methods Hnone). reflexivity.
Qed.

Lemma getPublicKeyFromDid_without_key_material_witness :
  findCreatedDid Scenario.keyless Sample.theDid
  = Fulfilled (Some {| record_didDocument :=
                         Some {| verificationMethod := Some [Sample.method1] |} |})
  /\ EthereumLedgerService.getPublicKeyFromDid Sample.here Scenario.keyless Sample.theDid
     = ([], Rejected (new_CredoError
                        ("Public Key hex not found in wallet for did: " ++ Sample.theDid))).
Proof.
  split; [ reflexivity | ].
  exact (proj2 (proj2 (getPublicKeyFromDid_without_key_material
                         Sample.here Scenario.keyless Sample.theDid _ eq_refl))
               _ _ [Sample.method1] eq_refl eq_refl eq_refl eq_refl).
Defined.

(** X22.  [getSigningKey] gives a signing key exactly when the wallet is an
    Askar wallet or an Askar profile wallet, holds an entry under the
    base-58 public key, and ethers accepts the secret bytes of that entry.
    A wallet of another class is refused without being asked for the
    entry. *)
Theorem getSigningKey_succeeds_exactly_when
        (w : World) (wallet : Wallet) (publicKeyBase58 : string)
        (signingKey : SigningKey) :
  (outcome (EthereumLedgerService.getSigningKey w wallet publicKeyBase58)
   = Fulfilled signingKey
   <-> walletKind wallet <> OtherWallet
       /\ exists secretBytes,
           fetchKey wallet publicKeyBase58 = Fulfilled (Some secretBytes)
           /\ new_SigningKey w secretBytes = Fulfilled signingKey)
  /\ (walletKind wallet = OtherWallet ->
      EthereumLedgerService.getSigningKey w wallet publicKeyBase58
      = ([], Rejected (new_CredoError
                         "Incorrect wallet type: Ethereum Module currently only supports Askar wallet")))
  /\ (walletKind wallet <> OtherWallet ->
      fetchKey wallet publicKeyBase58 = Fulfilled None ->
      EthereumLedgerService.getSigningKey w wallet publicKeyBase58
      = ([], Rejected (new_WalletError "Key not found in wallet"))).
Proof.
  unfold EthereumLedgerService.getSigningKey.
  split; [ | split ].
  - destruct (walletKind wallet);
      [ | | split; [ cbn; discriminate | intros [H _]; contradiction ] ];
      (destruct (fetchKey wallet publicKeyBase58) as [[secretBytes | ] | e];
       [ rewrite bind_settle_fulfilled;
         destruct (new_SigningKey w secretBytes) as [key | e] eqn:Hnew
       | | ]; cbn; split;
       [ intros [= <-]; split; [ discriminate | exists secretBytes; auto ]
       | intros [_ [s [[= <-] Hs]]]; congruence
       | discriminate
       | intros [_ [s [[= <-] Hs]]]; congruence
       | discriminate
       | intros [_ [s [[=] _]]]
       | discriminate
       | intros [_ [s [[=] _]]] ]).
  - intros ->. reflexivity.
  - intros Hkind Hnone. rewrite Hnone.
    destruct (walletKind wallet); [ reflexivity | reflexivity | contradiction ].
Qed.

(* ====================================================================== *)
(** ** The upload *)

(** X23.  [uploadSchemaFile] issues at most one request.  With an empty
    schema id or a schema without properties it issues none and settles
    rejected.  Otherwise it posts once, to the file server URL followed by
    [/schemas], with the bearer token and the JSON text of
    [{schemaId, schema}], and returns the response of axios unchanged. *)
Theorem uploadSchemaFile_posts_once
        (w : World) (schemaId : string) (schema : JsObject)
        (fileServerUrl fileServerToken : string) :
  (truthy schemaId = false \/ schema = [] ->
   schemaHelper.uploadSchemaFile w schemaId schema fileServerUrl fileServerToken
   = ([], Rejected (new_Error "Error occurred in uploadSchemaFile function Error: Schema resource id and schema are required! ")))
  /\ (truthy schemaId = true -> schema <> [] ->
      trace (schemaHelper.uploadSchemaFile w schemaId schema fileServerUrl fileServerToken)
      = [HttpPost (fileServerUrl ++ "/schemas") ("Bearer " ++ fileServerToken)
                  (JSON_stringify w (JObj [("schemaId", JStr schemaId);
                                           ("schema", JObj schema)]))]
      /\ forall response,
          axios w {| method := "post";
                     url := fileServerUrl ++ "/schemas";
                     header_ContentType := "application/json";
                     header_Authorization := "Bearer " ++ fileServerToken;
                     data := JSON_stringify w (JObj [("schemaId", JStr schemaId);
                                                     ("schema", JObj schema)]) |}
          = Fulfilled response ->
          outcome (schemaHelper.uploadSchemaFile
                     w schemaId schema fileServerUrl fileServerToken)
          = Fulfilled response).
Proof.
  split.
  - intros Hempty. unfold schemaHelper.uploadSchemaFile.
    assert (H : negb (truthy schemaId) || (Object_keys_length schema =? 0)%nat = true).
    { destruct Hempty as [-> | ->]; [ reflexivity | apply orb_true_r ]. }
    rewrite H. reflexivity.
  - intros Hid Hschema.
    assert (H : negb (truthy schemaId) || (Object_keys_length schema =? 0)%nat = false).
    { rewrite Hid. destruct schema; [ contradiction | reflexivity ]. }
    split.
    + rewrite upload_events, H. reflexivity.
    + intros response Haxios. unfold schemaHelper.uploadSchemaFile.
      rewrite H. cbn [url header_Authorization data]. rewrite Haxios. reflexivity.
Qed.

(** X24.  In [getSchemaByDidAndSchemaId] the arguments are checked before
    the settings: a DID or a schema id made of white space only settles
    rejected with a [SchemaRetrievalError] naming the schema id, before any
    event, also on a service that is not configured. *)
Theorem retrieval_rejects_blank_input_first
        (w : World) (self : LedgerService) (agentContext : AgentContext)
        (did schemaId : string) :
  allWhiteSpace did = true \/ allWhiteSpace schemaId = true ->
  exists reason,
    EthereumLedgerService.getSchemaByDidAndSchemaId w self agentContext did schemaId
    = ([], Rejected (new_SchemaRetrievalError schemaId reason None)).
Proof.
  intros Hblank. unfold EthereumLedgerService.getSchemaByDidAndSchemaId.
  rewrite !isBlank_allWhiteSpace.
  destruct (allWhiteSpace did); [ eexists; reflexivity | ].
  destruct Hblank as [H | H]; [ discriminate | ].
  rewrite H. eexists; reflexivity.
Qed.

Lemma retrieval_rejects_blank_input_first_witness :
  (allWhiteSpace Sample.theDid = true \/ allWhiteSpace " " = true)
  /\ exists reason,
      EthereumLedgerService.getSchemaByDidAndSchemaId
        Sample.here Sample.noNode (Sample.agentContext Sample.unreachable)
        Sample.theDid " "
      = ([], Rejected (new_SchemaRetrievalError " " reason None)).
Proof.
  assert (H : allWhiteSpace Sample.theDid = true \/ allWhiteSpace " " = true)
    by (right; reflexivity).
  split; [ exact H | ].
  exact (retrieval_rejects_blank_input_first
           Sample.here Sample.noNode (Sample.agentContext Sample.unreachable)
           Sample.theDid " " H).
Defined.

(* ====================================================================== *)
(** ** The DID resolver: the context list *)

Lemma filter_twice {A} (f : A -> bool) (l : list A) :
  filter f (filter f l) = filter f l.
Proof.
  induction l as [ | x l IH]; [ reflexivity | ].
  cbn [filter]. destruct (f x) eqn:Hx; [ | exact IH ].
  cbn [filter]. rewrite Hx, IH. reflexivity.
Qed.

(** X25.  Normalizing a context list twice is normalizing it once: a
    document that went through [resolve] and comes back is left as it is. *)
Theorem normalizeContext_idempotent (items : list string) :
  normalizeContext (normalizeContext items) = normalizeContext items.
Proof.
  unfold normalizeContext.
  destruct (Array_includes (filter (fun ctx => negb (ctx =? unstableContext)) items)
                           secp256k1Context) eqn:Hin; cbn [negb].
  - rewrite filter_twice, Hin. reflexivity.
  - rewrite filter_app, filter_twice.
    assert (Hnow : Array_includes
                     (filter (fun ctx => negb (ctx =? unstableContext)) items
                        ++ filter (fun ctx => negb (ctx =? unstableContext))
                                  [secp256k1Context])%list
                     secp256k1Context = true).
    { apply Array_includes_In, in_or_app. right. left. reflexivity. }
    rewrite Hnow. reflexivity.
Qed.

(** X26.  [resolve] touches no other entry of the context list: every URI
    other than the two it knows occurs in the normalized list as often as in
    the resolved one. *)
Theorem normalizeContext_keeps_other_entries (items : list string) (uri : string) :
  uri <> unstableContext ->
  uri <> secp256k1Context ->
  occurrences uri (normalizeContext items) = occurrences uri items.
Proof.
  intros Hunstable Hstable. unfold normalizeContext.
  destruct (Array_includes _ secp256k1Context); cbn [negb].
  - apply occurrences_filter_other. exact Hunstable.
  - unfold occurrences. rewrite count_occ_app.
    fold (occurrences uri (filter (fun ctx => negb (ctx =? unstableContext)) items)).
    rewrite (occurrences_filter_other _ _ items Hunstable).
    cbn [count_occ]. destruct (string_dec secp256k1Context uri) as [E | _];
      [ symmetry in E; contradiction | ].
    unfold occurrences. lia.
Qed.

Lemma normalizeContext_keeps_other_entries_witness :
  (Sample.w3cContext <> unstableContext /\ Sample.w3cContext <> secp256k1Context)
  /\ occurrences Sample.w3cContext
                 (normalizeContext [Sample.w3cContext; unstableContext; Sample.w3cContext])
     = occurrences Sample.w3cContext
                   [Sample.w3cContext; unstableContext; Sample.w3cContext].
Proof.
  assert (H1 : Sample.w3cContext <> unstableContext) by discriminate.
  assert (H2 : Sample.w3cContext <> secp256k1Context) by discriminate.
  split; [ split; assumption | ].
  exact (normalizeContext_keeps_other_entries
           [Sample.w3cContext; unstableContext; Sample.w3cContext]
           Sample.w3cContext H1 H2).
Defined.

(** X27.  Only an array is normalized.  When the resolved document is
    null, or its [@context] is absent or a single string, be it the unstable
    URI itself, [resolve] hands the document to [JsonTransformer.fromJSON]
    unchanged and returns its instance with the metadata of the library. *)
Theorem resolve_leaves_other_contexts
        (w : World) (agentContext : AgentContext) (service : LedgerService)
        (did : string) (resolved : DIDResolutionResult) :
  dependencyManager_resolve agentContext = Fulfilled service ->
  resolver service did = Fulfilled resolved ->
  (forall document items,
      resolved_didDocument resolved = Some document ->
      context document <> ContextArray items) ->
  resolve w agentContext did
  = ([], match JsonTransformer_fromJSON w (resolved_didDocument resolved) with
         | Fulfilled instance =>
             Fulfilled {| didDocument := instance;
                          didDocumentMetadata := resolved_didDocumentMetadata resolved;
                          didResolutionMetadata :=
                            resolved_didResolutionMetadata resolved |}
         | Rejected e =>
             Fulfilled {| didDocument := None;
                          didDocumentMetadata := [];
                          didResolutionMetadata :=
                            {| error := Some "notFound";
                               metadata_message :=
                                 Some ("resolver_error: Unable to resolve did '" ++ did
                                         ++ "': " ++ toString e);
                               contentType := None |} |}
         end).
Proof.
  intros Hservice Hresolved Hcontext.
  assert (Hsame : normalizeDocument (resolved_didDocument resolved)
                  = resolved_didDocument resolved).
  { unfold normalizeDocument.
    destruct (resolved_didDocument resolved) as [document | ]; [ | reflexivity ].
    destruct (context document) as [ | s | items] eqn:Hc; try reflexivity.
    exfalso. exact (Hcontext document items eq_refl Hc). }
  unfold resolve, EthereumLedgerService.resolveDID.
  rewrite Hservice, bind_settle_fulfilled, Hresolved, bind_settle_fulfilled, Hsame.
  destruct (JsonTransformer_fromJSON w (resolved_didDocument resolved)); reflexivity.
Qed.

Lemma resolve_leaves_other_contexts_witness :
  dependencyManager_resolve
    (Sample.agentContext (Sample.resolvedWith (ContextString unstableContext)))
  = Fulfilled (Sample.service (Sample.resolvedWith (ContextString unstableContext)))
  /\ outcome (resolve Sample.here
                      (Sample.agentContext
                         (Sample.resolvedWith (ContextString unstableContext)))
                      Sample.theDid)
     = Fulfilled
         {| didDocument :=
              Some (DidDocumentInstance
                      {| context := ContextString unstableContext;
                         document_id := Sample.theDid;
                         document_members := [] |});
            didDocumentMetadata := [];
            didResolutionMetadata :=
              {| error := None; metadata_message := None;
                 contentType := Some "application/did+ld+json" |} |}.
Proof.
  split; [ reflexivity | ].
  rewrite (resolve_leaves_other_contexts
             Sample.here
             (Sample.agentContext (Sample.resolvedWith (ContextString unstableContext)))
             (Sample.service (Sample.resolvedWith (ContextString unstableContext)))
             Sample.theDid
             {| resolved_didDocument :=
                  Some {| context := ContextString unstableContext;
                          document_id := Sample.theDid;
                          document_members := [] |};
                resolved_didDocumentMetadata := [];
                resolved_didResolutionMetadata :=
                  {| error := None; metadata_message := None;
                     contentType := Some "application/did+ld+json" |} |}
             eq_refl eq_refl
             ltac:(intros document items [= <-]; discriminate)).
  reflexivity.
Defined.

(* ====================================================================== *)
(** ** From the module options to the service *)

(** X28.  The service built from the module options reads its file server
    URL from [serverUrl] and resolves DIDs with the resolver of [config];
    options that leave out or leave empty one of
    [schemaManagerContractAddress], [rpcUrl], [serverUrl] and
    [fileServerToken] give a service whose [createSchema] is refused before
    any event. *)
Theorem service_from_options_needs_all_four
        (getResolver : ConfigurationOptions -> string -> Outcome DIDResolutionResult)
        (moduleOptions : EthereumModuleConfig.Options)
        (w : World) (agentContext : AgentContext) (options : SchemaCreateOptions) :
  optTruthy (EthereumModuleConfig.options_schemaManagerContractAddress moduleOptions)
  = false
  \/ optTruthy (EthereumModuleConfig.options_rpcUrl moduleOptions) = false
  \/ optTruthy (EthereumModuleConfig.options_serverUrl moduleOptions) = false
  \/ optTruthy (EthereumModuleConfig.options_fileServerToken moduleOptions) = false ->
  EthereumLedgerService.createSchema
    w (new_EthereumLedgerService getResolver (EthereumModuleConfig.new moduleOptions))
    agentContext options
  = ([], Rejected creationSettingsError)
  /\ fileServerUrl (new_EthereumLedgerService getResolver
                      (EthereumModuleConfig.new moduleOptions))
     = EthereumModuleConfig.options_serverUrl moduleOptions
  /\ resolver (new_EthereumLedgerService getResolver
                 (EthereumModuleConfig.new moduleOptions))
     = getResolver (EthereumModuleConfig.options_config moduleOptions).
Proof.
  intros H. split; [ | split; reflexivity ].
  unfold EthereumLedgerService.createSchema.
  rewrite checks_need_settings; [ reflexivity | exact H ].
Qed.

Lemma service_from_options_needs_all_four_witness :
  (optTruthy (EthereumModuleConfig.options_schemaManagerContractAddress
                Scenario.withoutFileServer) = false
   \/ optTruthy (EthereumModuleConfig.options_rpcUrl Scenario.withoutFileServer) = false
   \/ optTruthy (EthereumModuleConfig.options_serverUrl Scenario.withoutFileServer) = false
   \/ optTruthy (EthereumModuleConfig.options_fileServerToken Scenario.withoutFileServer)
      = false)
  /\ EthereumLedgerService.createSchema
       Sample.here
       (new_EthereumLedgerService (fun _ => Sample.unreachable)
                                  (EthereumModuleConfig.new Scenario.withoutFileServer))
       (Sample.agentContext Sample.unreachable) Sample.options
     = ([], Rejected creationSettingsError).
Proof.
  assert (H : optTruthy (EthereumModuleConfig.options_schemaManagerContractAddress
                           Scenario.withoutFileServer) = false
              \/ optTruthy (EthereumModuleConfig.options_rpcUrl Scenario.withoutFileServer)
                 = false
              \/ optTruthy (EthereumModuleConfig.options_serverUrl
                              Scenario.withoutFileServer) = false
              \/ optTruthy (EthereumModuleConfig.options_fileServerToken
                              Scenario.withoutFileServer) = false)
    by (right; right; left; reflexivity).
  split; [ exact H | ].
  exact (proj1 (service_from_options_needs_all_four
                  (fun _ => Sample.unreachable) Scenario.withoutFileServer
                  Sample.here (Sample.agentContext Sample.unreachable)
                  Sample.options H)).
Defined.
